(** * Electric-Propeller-CFD-Analysis: geometry generator and flow solver

    A shallow embedding of [src/naca_geometry.py] ([naca4_coordinates]) and
    [src/flow_solver.py] (class [FlowSolver]) and the properties their
    specification states about them.

    Conventions of the embedding.
    - A Python [float] and a NumPy [float64] are a real number of [R]:
      binary64 rounding is abstracted, so an array holds the exact value
      of each expression and a comparison such as [x[i] <= p] is made on
      exact values (a sample that rounding moves across [p] takes the
      other branch in the interpreter).  Statements on values are
      therefore bounds with a margin, or equalities up to a tolerance,
      wherever rounding could break an exact one.  What can
      stop a run is kept: Python's [float / float] raises
      [ZeroDivisionError] on a zero divisor, [s[i]] raises [IndexError],
      [int(s)] raises [ValueError], [int / float] raises [OverflowError],
      [np.linspace] raises [ValueError] on a negative count.  NumPy's
      array arithmetic never raises.  Module [Binary64] repeats the two
      camber formulas on binary64 floats, for checks by evaluation.
    - A [str] is a [string] (code points below 256), an [int] is a [Z].
    - A one-dimensional array is a [list R]; a two-dimensional one is the
      list of its rows.
    - A function that can raise returns a [result]. *)

From Stdlib Require Import Reals Lra Lia ZArith List String Ascii Bool.
From Stdlib Require Floats.
Import ListNotations.

Local Open Scope R_scope.

(** ** Exceptions and results *)

(** The exception classes a run can end with.  The first four are Python
    built-ins; the last three are the error names of the specification,
    for which the sources contain no [raise]. *)
Inductive exn : Set :=
  | IndexError
  | ValueError
  | OverflowError
  | ZeroDivisionError
  | InvalidDesignation
  | DegenerateCamberPosition
  | InvalidGridResolution.

Inductive result (A : Type) : Type :=
  | Ok (a : A)
  | Raise (e : exn).

Arguments Ok {A} a.
Arguments Raise {A} e.

Definition bind {A B : Type} (r : result A) (k : A -> result B) : result B :=
  match r with
  | Ok a => k a
  | Raise e => Raise e
  end.

Notation "x <- r ;; k" := (bind r (fun x => k))
  (at level 61, r at next level, right associativity).

(** [for i in idx: s = body(i, s)], stopped by the first exception. *)
Fixpoint for_each {S : Type} (body : nat -> S -> result S)
    (idx : list nat) (s : S) : result S :=
  match idx with
  | [] => Ok s
  | i :: rest => s' <- body i s ;; for_each body rest s'
  end.

Definition range (n : nat) : list nat := seq 0 n.

(** ** The Python built-ins the sources call *)

Module Py.

(** [s[i]] on a string, for an index [i >= 0]. *)
Definition str_getitem (s : string) (i : nat) : result string :=
  match String.get i s with
  | Some c => Ok (String c EmptyString)
  | None => Raise IndexError
  end.

(** [s[k:]], for [k >= 0]: never raises, empty past the end. *)
Fixpoint slice_from (k : nat) (s : string) : string :=
  match k, s with
  | O, _ => s
  | S k', String _ s' => slice_from k' s'
  | S _, EmptyString => EmptyString
  end.

(** The characters [int] strips at both ends of a string below 256: the
    ASCII white space (tab to carriage return, and the space) and the two
    characters NEL and NBSP.  The separators 28 to 31 are not stripped:
    [int] refuses a string that holds one. *)
Definition isspace (c : ascii) : bool :=
  let n := nat_of_ascii c in
  ((9 <=? n) && (n <=? 13) || (n =? 32) || (n =? 133) || (n =? 160))%nat.

(** The decimal digits below 256 are ['0'] .. ['9']. *)
Definition isdigit (c : ascii) : bool :=
  let n := nat_of_ascii c in ((48 <=? n) && (n <=? 57))%nat.

Definition digit_value (c : ascii) : Z := (Z.of_nat (nat_of_ascii c) - 48)%Z.

Fixpoint lstrip (cs : list ascii) : list ascii :=
  match cs with
  | c :: cs' => if isspace c then lstrip cs' else cs
  | [] => []
  end.

Definition strip (cs : list ascii) : list ascii :=
  rev (lstrip (rev (lstrip cs))).

(** The body of a base-10 literal: digits, single underscores allowed
    between two digits.  [after_digit] tells whether the previous
    character was a digit. *)
Fixpoint digits (cs : list ascii) (acc : Z) (after_digit : bool) : option Z :=
  match cs with
  | [] => if after_digit then Some acc else None
  | c :: cs' =>
      if isdigit c then digits cs' (10 * acc + digit_value c)%Z true
      else if (Ascii.eqb c "_" && after_digit)%bool then digits cs' acc false
      else None
  end.

(** [int(s)]: surrounding white space, an optional sign, the digits.
    A literal of more than 4300 digits (the default limit of the
    interpreter, leading zeros counted, underscores not) is refused like
    a malformed one. *)
Definition int (s : string) : result Z :=
  let body := strip (list_ascii_of_string s) in
  let signed :=
    match body with
    | "-"%char :: r => option_map Z.opp (digits r 0%Z false)
    | "+"%char :: r => digits r 0%Z false
    | _ => digits body 0%Z false
    end in
  if (4300 <? List.length (filter isdigit body))%nat then Raise ValueError
  else
    match signed with
    | Some z => Ok z
    | None => Raise ValueError
    end.

(** The conversion of an [int] operand of [int / float]: a magnitude
    that rounds to infinity raises. *)
Definition float_of_int (z : Z) : result R :=
  if (2 ^ 1024 - 2 ^ 970 <=? Z.abs z)%Z then Raise OverflowError
  else Ok (IZR z).

(** [a / b] on two floats. *)
Definition truediv (a b : R) : result R :=
  if Req_dec_T b 0 then Raise ZeroDivisionError else Ok (a / b).

(** [z / b] for an [int] [z] and a float [b]. *)
Definition int_truediv (z : Z) (b : R) : result R :=
  a <- float_of_int z ;; truediv a b.

End Py.

(** ** The NumPy operations the sources call *)

Module Np.

Definition array := list R.
Definition array2 := list (list R).

Fixpoint zip_with {A B C : Type} (f : A -> B -> C)
    (a : list A) (b : list B) : list C :=
  match a, b with
  | u :: a', v :: b' => f u v :: zip_with f a' b'
  | _, _ => []
  end.

(** [a[i]] and [a[i] = v] for [0 <= i]; out of range raises. *)
Definition getitem (a : array) (i : nat) : result R :=
  match nth_error a i with
  | Some v => Ok v
  | None => Raise IndexError
  end.

Fixpoint setitem (a : array) (i : nat) (v : R) : result array :=
  match a, i with
  | [], _ => Raise IndexError
  | _ :: a', O => Ok (v :: a')
  | u :: a', S i' => r <- setitem a' i' v ;; Ok (u :: r)
  end.

(** [np.linspace(start, stop, num)] with [endpoint=True]:
    [arange(num) * step + start] (the path of a nonzero step), the
    last sample set to [stop]. *)
Definition linspace (start stop : R) (num : Z) : result array :=
  if (num <? 0)%Z then Raise ValueError
  else
    let n := Z.to_nat num in
    let div := (n - 1)%nat in
    let delta := stop - start in
    let y :=
      if (0 <? div)%nat
      then map (fun i => INR i * (delta / INR div) + start) (seq 0 n)
      else map (fun i => INR i * delta + start) (seq 0 n) in
    Ok (if (1 <? n)%nat then removelast y ++ [stop] else y).

Definition zeros_like (a : array) : array := map (fun _ => 0) a.

(** Element-wise operations on one-dimensional arrays. *)
Definition sqrt (a : array) : array := map R_sqrt.sqrt a.
Definition arctan (a : array) : array := map atan a.
Definition sin (a : array) : array := map Rtrigo_def.sin a.
Definition cos (a : array) : array := map Rtrigo_def.cos a.
Definition pow (a : array) (k : nat) : array := map (fun v => v ^ k) a.
Definition scale (c : R) (a : array) : array := map (fun v => c * v) a.
Definition add (a b : array) : array := zip_with Rplus a b.
Definition sub (a b : array) : array := zip_with Rminus a b.
Definition mul (a b : array) : array := zip_with Rmult a b.
Definition adds (c : R) (a : array) : array := map (fun v => c + v) a.
Definition le_scalar (a : array) (c : R) : list bool :=
  map (fun v => if Rle_dec v c then true else false) a.

(** [np.where(cond, a, b)]. *)
Fixpoint where_ (cond : list bool) (a b : array) : array :=
  match cond, a, b with
  | c :: cond', u :: a', v :: b' =>
      (if c then u else v) :: where_ cond' a' b'
  | _, _, _ => []
  end.

(** [np.meshgrid(x, y)] with the default ['xy'] indexing: both results
    have [len(y)] rows of [len(x)] entries. *)
Definition meshgrid (x y : array) : array2 * array2 :=
  (map (fun _ => x) y, map (fun v => map (fun _ => v) x) y).

(** Element-wise operations on two-dimensional arrays. *)
Definition map2d (f : R -> R) (a : array2) : array2 := map (map f) a.
Definition zip2d (f : R -> R -> R) (a b : array2) : array2 :=
  zip_with (zip_with f) a b.

Definition sub_scalar2 (a : array2) (c : R) : array2 := map2d (fun v => v - c) a.
Definition add_scalar2 (a : array2) (c : R) : array2 := map2d (fun v => v + c) a.
Definition radd_scalar2 (c : R) (a : array2) : array2 := map2d (fun v => c + v) a.
Definition rsub_scalar2 (c : R) (a : array2) : array2 := map2d (fun v => c - v) a.
Definition scale2 (c : R) (a : array2) : array2 := map2d (fun v => c * v) a.
Definition pow2 (a : array2) (k : nat) : array2 := map2d (fun v => v ^ k) a.
Definition sqrt2 (a : array2) : array2 := map2d R_sqrt.sqrt a.
Definition add2 (a b : array2) : array2 := zip2d Rplus a b.
Definition div2 (a b : array2) : array2 := zip2d Rdiv a b.

(** [np.radians]. *)
Definition radians (deg : R) : R := deg * (PI / 180).

(** [a[i][j]] where it exists ([0] is only the default of [nth]). *)
Definition at2 (a : array2) (i j : nat) : R := nth j (nth i a []) 0.

(** An array of [r] rows of [c] entries. *)
Definition shape2 (a : array2) (r c : nat) : Prop :=
  List.length a = r /\ Forall (fun row => List.length row = c) a.

End Np.

(** ** [src/naca_geometry.py] *)

(** A designation of four characters. *)
Definition four (a b c d : ascii) : string :=
  String a (String b (String c (String d EmptyString))).

(** Lines 28-30: the three parameters of the designation. *)
Definition decode (number : string) : result (R * R * R) :=
  c0 <- Py.str_getitem number 0 ;;
  d0 <- Py.int c0 ;;
  m <- Py.int_truediv d0 100 ;;
  c1 <- Py.str_getitem number 1 ;;
  d1 <- Py.int c1 ;;
  p <- Py.int_truediv d1 10 ;;
  d2 <- Py.int (Py.slice_from 2 number) ;;
  t <- Py.int_truediv d2 100 ;;
  Ok (m, p, t).

(** Lines 37-38: the thickness distribution. *)
Definition thickness (t : R) (x : Np.array) : Np.array :=
  Np.scale (5 * t)
    (Np.sub
       (Np.add
          (Np.sub
             (Np.sub (Np.scale 0.2969 (Np.sqrt x)) (Np.scale 0.1260 x))
             (Np.scale 0.3516 (Np.pow x 2)))
          (Np.scale 0.2843 (Np.pow x 3)))
       (Np.scale 0.1015 (Np.pow x 4))).

(** The two branches of lines 47 and 51, and of lines 48 and 52. *)
Definition camber_forward (m p x : R) : result R :=
  q <- Py.truediv m (p ^ 2) ;; Ok (q * (2 * p * x - x ^ 2)).

Definition camber_aft (m p x : R) : result R :=
  q <- Py.truediv m ((1 - p) ^ 2) ;; Ok (q * ((1 - 2 * p) + 2 * p * x - x ^ 2)).

Definition slope_forward (m p x : R) : result R :=
  q <- Py.truediv (2 * m) (p ^ 2) ;; Ok (q * (p - x)).

Definition slope_aft (m p x : R) : result R :=
  q <- Py.truediv (2 * m) ((1 - p) ^ 2) ;; Ok (q * (p - x)).

(** Lines 45-52: one turn of the loop on the pair [(yc, dyc_dx)]. *)
Definition camber_step (m p : R) (x : Np.array) (i : nat)
    (st : Np.array * Np.array) : result (Np.array * Np.array) :=
  let (yc, dyc_dx) := st in
  xi <- Np.getitem x i ;;
  if Rle_dec xi p then
    v <- camber_forward m p xi ;;
    yc' <- Np.setitem yc i v ;;
    d <- slope_forward m p xi ;;
    dyc_dx' <- Np.setitem dyc_dx i d ;;
    Ok (yc', dyc_dx')
  else
    v <- camber_aft m p xi ;;
    yc' <- Np.setitem yc i v ;;
    d <- slope_aft m p xi ;;
    dyc_dx' <- Np.setitem dyc_dx i d ;;
    Ok (yc', dyc_dx').

(** The six arrays [naca4_coordinates] returns. *)
Record coordinates : Type := {
  xu : Np.array;
  yu : Np.array;
  xl : Np.array;
  yl : Np.array;
  xc : Np.array;
  yc : Np.array
}.

Definition naca4_coordinates (number : string) (n_points : Z) : result coordinates :=
  mpt <- decode number ;;
  let '(m, p, t) := mpt in
  x <- Np.linspace 0 1 n_points ;;
  let yt := thickness t x in
  st <- for_each (camber_step m p x) (range (List.length x))
          (Np.zeros_like x, Np.zeros_like x) ;;
  let (yc, dyc_dx) := st in
  let theta := Np.arctan dyc_dx in
  Ok {| xu := Np.sub x (Np.mul yt (Np.sin theta));
        yu := Np.add yc (Np.mul yt (Np.cos theta));
        xl := Np.add x (Np.mul yt (Np.sin theta));
        yl := Np.sub yc (Np.mul yt (Np.cos theta));
        xc := x;
        yc := yc |}.

(** ** [src/flow_solver.py] *)

Record FlowSolver : Type := {
  code : string;
  alpha : R;
  Re : R
}.

(** [FlowSolver.__init__] (the line it prints is not modelled). *)
Definition init (airfoil_code : string) (alpha_deg reynolds : R) : FlowSolver :=
  {| code := airfoil_code; alpha := Np.radians alpha_deg; Re := reynolds |}.

(** [FlowSolver.naca4_geometry]. *)
Definition naca4_geometry (self : FlowSolver) (n_points : Z)
    : result (Np.array * Np.array * Np.array) :=
  let m := 0.04 in
  let p := 0.4 in
  let t := 0.12 in
  x <- Np.linspace 0 1 n_points ;;
  let yt := thickness t x in
  qf <- Py.truediv m (p ^ 2) ;;
  qa <- Py.truediv m ((1 - p) ^ 2) ;;
  let yc :=
    Np.where_ (Np.le_scalar x p)
      (Np.scale qf (Np.sub (Np.scale (2 * p) x) (Np.pow x 2)))
      (Np.scale qa
         (Np.sub (Np.adds (1 - 2 * p) (Np.scale (2 * p) x)) (Np.pow x 2))) in
  Ok (x, yc, yt).

(** Lines 51-56: the locals [gamma], [r2], [u_vortex] and [v_vortex]. *)
Definition gamma : R := 2.5.

Definition r2_of (X Y : Np.array2) : Np.array2 :=
  Np.add2 (Np.pow2 (Np.sub_scalar2 X 0.25) 2) (Np.pow2 Y 2).

Definition u_vortex_of (X Y : Np.array2) : Np.array2 :=
  Np.scale2 (gamma / (2 * PI))
    (Np.div2 Y (Np.add_scalar2 (r2_of X Y) 0.05)).

Definition v_vortex_of (X Y : Np.array2) : Np.array2 :=
  Np.scale2 (- (gamma / (2 * PI)))
    (Np.div2 (Np.sub_scalar2 X 0.25) (Np.add_scalar2 (r2_of X Y) 0.05)).

(** The five arrays [compute_flow_field] returns. *)
Record flow_field : Type := {
  fX : Np.array2;
  fY : Np.array2;
  fU : Np.array2;
  fV : Np.array2;
  fCp : Np.array2
}.

(** [FlowSolver.compute_flow_field]. *)
Definition compute_flow_field (self : FlowSolver) (grid_res : Z) : result flow_field :=
  x_grid <- Np.linspace (-0.5) 1.5 grid_res ;;
  y_grid <- Np.linspace (-0.8) 0.8 grid_res ;;
  let (X, Y) := Np.meshgrid x_grid y_grid in
  let u_inf := cos (alpha self) in
  let v_inf := sin (alpha self) in
  let U := Np.radd_scalar2 u_inf (u_vortex_of X Y) in
  let V := Np.radd_scalar2 v_inf (v_vortex_of X Y) in
  let Vel_Mag := Np.sqrt2 (Np.add2 (Np.pow2 U 2) (Np.pow2 V 2)) in
  let Cp := Np.rsub_scalar2 1 (Np.pow2 Vel_Mag 2) in
  Ok {| fX := X; fY := Y; fU := U; fV := V; fCp := Cp |}.

(** ** Closed forms used in the statements *)

(** The [i]-th of [n] uniform samples of [[a, b]]. *)
Definition sample (a b : R) (n i : nat) : R :=
  a + INR i * ((b - a) / INR (n - 1)).

(** The camber ordinate and slope, with the split at [x = p]. *)
Definition camber_line (m p x : R) : R :=
  if Rle_dec x p
  then m / p ^ 2 * (2 * p * x - x ^ 2)
  else m / (1 - p) ^ 2 * ((1 - 2 * p) + 2 * p * x - x ^ 2).

Definition camber_slope (m p x : R) : R :=
  if Rle_dec x p
  then 2 * m / p ^ 2 * (p - x)
  else 2 * m / (1 - p) ^ 2 * (p - x).

(** The thickness formula as the specification writes it. *)
Definition yt_formula (t x : R) : R :=
  5 * t * (0.2969 * sqrt x - 0.1260 * x - 0.3516 * x ^ 2
           + 0.2843 * x ^ 3 - 0.1015 * x ^ 4).

(** The surface points over one chord position [x], lines 59-62. *)
Definition theta_at (m p x : R) : R := atan (camber_slope m p x).

Definition xu_at (m p t x : R) : R := x - yt_formula t x * sin (theta_at m p x).
Definition yu_at (m p t x : R) : R :=
  camber_line m p x + yt_formula t x * cos (theta_at m p x).
Definition xl_at (m p t x : R) : R := x + yt_formula t x * sin (theta_at m p x).
Definition yl_at (m p t x : R) : R :=
  camber_line m p x - yt_formula t x * cos (theta_at m p x).

(** The chord samples of [n] points. *)
Definition chord (n : nat) : Np.array := map (sample 0 1 n) (seq 0 n).

(** The table of [h] over the lattice [xs] x [ys], one row per [y]. *)
Definition tab (h : R -> R -> R) (xs ys : Np.array) : Np.array2 :=
  map (fun y => map (fun x => h x y) xs) ys.

(** The vortex terms at one point. *)
Definition r2_at (x y : R) : R := (x - 0.25) ^ 2 + y ^ 2.

Definition u_vortex_at (x y : R) : R :=
  gamma / (2 * PI) * (y / (r2_at x y + 0.05)).

Definition v_vortex_at (x y : R) : R :=
  - (gamma / (2 * PI)) * ((x - 0.25) / (r2_at x y + 0.05)).

Definition U_at (a x y : R) : R := cos a + u_vortex_at x y.
Definition V_at (a x y : R) : R := sin a + v_vortex_at x y.
Definition Cp_at (a x y : R) : R :=
  1 - sqrt (U_at a x y ^ 2 + V_at a x y ^ 2) ^ 2.

(** ** The camber branches in binary64

    The same two formulas on the floats of the interpreter, for checks
    by evaluation.  [x ** 2] is taken as the correctly rounded square. *)

Module Binary64.

Import Floats.
Local Open Scope float_scope.

(** The float of a digit [d], as in [int(c) / 100.0]. *)
Definition of_int (d : Z) : float := PrimFloat.of_uint63 (Uint63.of_Z d).

Definition forward_branch (m p x : float) : float :=
  (m / (p * p)) * (2 * p * x - x * x).

Definition aft_branch (m p x : float) : float :=
  (m / ((1 - p) * (1 - p))) * ((1 - 2 * p) + 2 * p * x - x * x).

(** The distance of the two branches at [x = p] for the digits [dm] and
    [dp] of a designation. *)
Definition gap (dm dp : Z) : float :=
  let m := of_int dm / 100 in
  let p := of_int dp / 10 in
  abs (forward_branch m p p - aft_branch m p p).

Definition tolerance : float := 1 / 1000000000.

Definition within_tolerance (dm dp : Z) : bool := gap dm dp <=? tolerance.

End Binary64.

(** ** [FlowSolver.plot_results], the arrays it computes

    Line 88 fills the body between [yc + yt] and [yc - yt] over the chord
    samples; the drawing itself is not modelled. *)
Definition body_mask (yc yt : Np.array) : Np.array * Np.array :=
  (Np.add yc yt, Np.sub yc yt).

(** ** [src/validation_plotter.py], the data of lines 19-27 *)

Module Validation.

(** [a * c], [a - c] and [a + c] for an array [a] and a float [c]. *)
Definition mul_scalar (a : Np.array) (c : R) : Np.array := map (fun v => v * c) a.
Definition sub_scalar (a : Np.array) (c : R) : Np.array := map (fun v => v - c) a.
Definition add_scalar (a : Np.array) (c : R) : Np.array := map (fun v => v + c) a.

Definition alpha_ref : list Z := [-4; -2; 0; 2; 4; 6; 8; 10; 12]%Z.

Definition cl_ref : Np.array :=
  [0.05; 0.28; 0.51; 0.73; 0.95; 1.15; 1.34; 1.48; 1.58].

Definition cd_ref : Np.array :=
  [0.007; 0.0065; 0.007; 0.008; 0.0095; 0.011; 0.014; 0.019; 0.026].

Definition alpha_sim : list Z := alpha_ref.
Definition cl_sim : Np.array := sub_scalar (mul_scalar cl_ref 1.02) 0.02.
Definition cd_sim : Np.array := add_scalar (mul_scalar cd_ref 0.95) 0.002.

End Validation.

(** * Properties *)

(** ** Python built-ins *)

Lemma truediv_nonzero (a b : R) : b <> 0 -> Py.truediv a b = Ok (a / b).
Proof.
  intros Hb. unfold Py.truediv.
  destruct (Req_dec_T b 0) as [E | _]; [contradiction | reflexivity].
Qed.

Lemma truediv_zero (a b : R) : b = 0 -> Py.truediv a b = Raise ZeroDivisionError.
Proof.
  intros Hb. unfold Py.truediv.
  destruct (Req_dec_T b 0) as [_ | N]; [reflexivity | contradiction].
Qed.

Lemma float_of_int_small (z : Z) :
  (Z.abs z < 1000)%Z -> Py.float_of_int z = Ok (IZR z).
Proof.
  intros Hz. unfold Py.float_of_int.
  destruct (Z.leb_spec (2 ^ 1024 - 2 ^ 970) (Z.abs z)) as [Hbig | _];
    [| reflexivity].
  exfalso.
  assert (Hlow : (1000 < 2 ^ 1024 - 2 ^ 970)%Z) by (vm_compute; reflexivity).
  lia.
Qed.

Lemma int_truediv_small (z : Z) (b : R) :
  (Z.abs z < 1000)%Z -> b <> 0 -> Py.int_truediv z b = Ok (IZR z / b).
Proof.
  intros Hz Hb. unfold Py.int_truediv.
  rewrite (float_of_int_small z Hz). simpl. apply truediv_nonzero, Hb.
Qed.

(** A decimal digit is one of the ten characters ['0'] .. ['9']. *)
Lemma isdigit_cases (c : ascii) :
  Py.isdigit c = true ->
  In c ["0"; "1"; "2"; "3"; "4"; "5"; "6"; "7"; "8"; "9"]%char.
Proof.
  destruct c as [[] [] [] [] [] [] [] []]; vm_compute; intros H;
    try discriminate H; tauto.
Qed.

Lemma digit_value_range (c : ascii) :
  Py.isdigit c = true -> (0 <= Py.digit_value c <= 9)%Z.
Proof.
  intros H. apply isdigit_cases in H. simpl in H.
  repeat (destruct H as [<- | H]; [vm_compute; split; discriminate |]).
  contradiction.
Qed.

(** [int] of a one-character string succeeds on a digit only. *)
Lemma int_one_char (c : ascii) :
  Py.int (String c EmptyString) =
  if Py.isdigit c then Ok (Py.digit_value c) else Raise ValueError.
Proof.
  destruct c as [[] [] [] [] [] [] [] []]; vm_compute; reflexivity.
Qed.

(** [int] of two digits. *)
Lemma int_two_digits (c d : ascii) :
  Py.isdigit c = true -> Py.isdigit d = true ->
  Py.int (String c (String d EmptyString)) =
  Ok (10 * Py.digit_value c + Py.digit_value d)%Z.
Proof.
  intros Hc Hd. apply isdigit_cases in Hc. apply isdigit_cases in Hd.
  simpl in Hc, Hd.
  repeat (destruct Hc as [<- | Hc]; [| ]);
    try contradiction;
    repeat (destruct Hd as [<- | Hd]; [vm_compute; reflexivity |]);
    contradiction.
Qed.

Lemma int_cases (s : string) :
  (exists z, Py.int s = Ok z) \/ Py.int s = Raise ValueError.
Proof.
  unfold Py.int.
  match goal with |- context [if ?b then _ else _] => destruct b end;
    [right; reflexivity |].
  match goal with |- context [match ?o with Some _ => _ | None => _ end] =>
    destruct o as [z |] end.
  - left. exists z. reflexivity.
  - right. reflexivity.
Qed.

Lemma str_getitem_cases (s : string) (i : nat) :
  (exists c, Py.str_getitem s i = Ok (String c EmptyString)) \/
  Py.str_getitem s i = Raise IndexError.
Proof.
  unfold Py.str_getitem. destruct (String.get i s) as [c |].
  - left. exists c. reflexivity.
  - right. reflexivity.
Qed.

Lemma int_truediv_cases (z : Z) (b : R) :
  b <> 0 ->
  Py.int_truediv z b = Ok (IZR z / b) \/ Py.int_truediv z b = Raise OverflowError.
Proof.
  intros Hb. unfold Py.int_truediv, Py.float_of_int.
  destruct (2 ^ 1024 - 2 ^ 970 <=? Z.abs z)%Z; simpl.
  - right. reflexivity.
  - left. apply truediv_nonzero, Hb.
Qed.

(** ** Decoding *)

Lemma decode_four (a b c d : ascii) :
  Py.isdigit a = true -> Py.isdigit b = true ->
  Py.isdigit c = true -> Py.isdigit d = true ->
  decode (four a b c d) =
  Ok (IZR (Py.digit_value a) / 100,
      IZR (Py.digit_value b) / 10,
      IZR (10 * Py.digit_value c + Py.digit_value d) / 100).
Proof.
  intros Ha Hb Hc Hd.
  pose proof (digit_value_range a Ha) as Ra.
  pose proof (digit_value_range b Hb) as Rb.
  pose proof (digit_value_range c Hc) as Rc.
  pose proof (digit_value_range d Hd) as Rd.
  unfold decode, four.
  change (Py.str_getitem (String a (String b (String c (String d EmptyString)))) 0)
    with (Ok (A := string) (String a EmptyString)).
  change (Py.str_getitem (String a (String b (String c (String d EmptyString)))) 1)
    with (Ok (A := string) (String b EmptyString)).
  change (Py.slice_from 2 (String a (String b (String c (String d EmptyString)))))
    with (String c (String d EmptyString)).
  cbn [bind]. rewrite int_one_char, Ha. cbn [bind].
  rewrite int_truediv_small by (try lia; lra). cbn [bind].
  rewrite int_one_char, Hb. cbn [bind].
  rewrite int_truediv_small by (try lia; lra). cbn [bind].
  rewrite (int_two_digits c d Hc Hd). cbn [bind].
  rewrite int_truediv_small by (try lia; lra). cbn [bind].
  reflexivity.
Qed.

(** What can stop the decoding. *)
Lemma decode_raises (number : string) (e : exn) :
  decode number = Raise e ->
  e = IndexError \/ e = ValueError \/ e = OverflowError.
Proof.
  unfold decode. intros H.
  destruct (str_getitem_cases number 0) as [[c0 E] | E]; rewrite E in H;
    cbn [bind] in H; [| inversion H; auto].
  destruct (int_cases (String c0 EmptyString)) as [[z0 E0] | E0];
    rewrite E0 in H; cbn [bind] in H; [| inversion H; auto].
  destruct (int_truediv_cases z0 100) as [E1 | E1]; [lra | |];
    rewrite E1 in H; cbn [bind] in H; [| inversion H; auto].
  destruct (str_getitem_cases number 1) as [[c1 E2] | E2]; rewrite E2 in H;
    cbn [bind] in H; [| inversion H; auto].
  destruct (int_cases (String c1 EmptyString)) as [[z1 E3] | E3];
    rewrite E3 in H; cbn [bind] in H; [| inversion H; auto].
  destruct (int_truediv_cases z1 10) as [E4 | E4]; [lra | |];
    rewrite E4 in H; cbn [bind] in H; [| inversion H; auto].
  destruct (int_cases (Py.slice_from 2 number)) as [[z2 E5] | E5];
    rewrite E5 in H; cbn [bind] in H; [| inversion H; auto].
  destruct (int_truediv_cases z2 100) as [E6 | E6]; [lra | |];
    rewrite E6 in H; cbn [bind] in H; [| inversion H; auto].
  discriminate H.
Qed.

(** ** [np.linspace] *)

Lemma linspace_negative (a b : R) (num : Z) :
  (num < 0)%Z -> Np.linspace a b num = Raise ValueError.
Proof.
  intros H. unfold Np.linspace.
  destruct (Z.ltb_spec num 0); [reflexivity | lia].
Qed.

Lemma linspace_samples (a b : R) (num : Z) :
  (0 <= num)%Z ->
  Np.linspace a b num =
  Ok (map (sample a b (Z.to_nat num)) (seq 0 (Z.to_nat num))).
Proof.
  intros H. unfold Np.linspace.
  destruct (Z.ltb_spec num 0) as [Hneg | _]; [lia |].
  f_equal.
  destruct (Z.to_nat num) as [| [| n]].
  - reflexivity.
  - cbn [Nat.sub Nat.ltb Nat.leb seq map]. unfold sample.
    f_equal. cbn [INR]. ring.
  - replace (S (S n) - 1)%nat with (S n) by lia.
    replace (0 <? S n)%nat with true by reflexivity.
    replace (1 <? S (S n))%nat with true by reflexivity.
    rewrite (seq_S (S n) 0), !map_app.
    cbn [map Nat.add]. rewrite removelast_last. f_equal.
    + apply map_ext. intros i. unfold sample.
      replace (S (S n) - 1)%nat with (S n) by lia. ring.
    + f_equal. unfold sample.
      replace (S (S n) - 1)%nat with (S n) by lia.
      field. apply not_0_INR. discriminate.
Qed.

Lemma sample_first (a b : R) (n : nat) : sample a b n 0 = a.
Proof. unfold sample. cbn [INR]. ring. Qed.

Lemma sample_bounds (a b : R) (n i : nat) :
  a <= b -> (i < n)%nat -> a <= sample a b n i <= b.
Proof.
  intros Hab Hi. unfold sample.
  destruct (Nat.eq_dec (n - 1) 0) as [E | E].
  - assert (i = 0)%nat as -> by lia. cbn [INR]. lra.
  - assert (Hd : 0 < INR (n - 1)) by (apply lt_0_INR; lia).
    assert (Hi0 : 0 <= INR i) by apply pos_INR.
    assert (Hi1 : INR i <= INR (n - 1)) by (apply le_INR; lia).
    assert (Hq : 0 <= INR i / INR (n - 1) <= 1).
    { split.
      - apply Rmult_le_pos; [exact Hi0 | left; apply Rinv_0_lt_compat, Hd].
      - apply (Rmult_le_reg_r (INR (n - 1))); [exact Hd |].
        replace (INR i / INR (n - 1) * INR (n - 1)) with (INR i)
          by (field; lra).
        lra. }
    replace (INR i * ((b - a) / INR (n - 1)))
      with (INR i / INR (n - 1) * (b - a)) by (field; lra).
    nra.
Qed.

Lemma sample_increasing (a b : R) (n i j : nat) :
  a < b -> (i < j)%nat -> (j < n)%nat -> sample a b n i < sample a b n j.
Proof.
  intros Hab Hij Hj. unfold sample.
  assert (Hd : 0 < INR (n - 1)) by (apply lt_0_INR; lia).
  assert (Hs : 0 < (b - a) / INR (n - 1)).
  { apply Rmult_lt_0_compat; [lra | apply Rinv_0_lt_compat, Hd]. }
  assert (Hlt : INR i < INR j) by (apply lt_INR, Hij).
  nra.
Qed.

(** ** The camber loop *)

Lemma np_getitem_app (done todo : Np.array) (a : R) :
  Np.getitem (done ++ a :: todo) (List.length done) = Ok a.
Proof.
  unfold Np.getitem.
  rewrite nth_error_app2 by lia. rewrite Nat.sub_diag. reflexivity.
Qed.

Lemma np_setitem_app (l1 l2 : Np.array) (u v : R) :
  Np.setitem (l1 ++ u :: l2) (List.length l1) v = Ok (l1 ++ v :: l2).
Proof.
  induction l1 as [| w l1 IH]; cbn [app List.length Np.setitem].
  - reflexivity.
  - rewrite IH. reflexivity.
Qed.

Lemma pow2_nonzero (p : R) : p <> 0 -> p ^ 2 <> 0.
Proof. intros Hp. apply pow_nonzero, Hp. Qed.

Section Loop.

Variables m p : R.
Hypothesis p_nonzero : p <> 0.
Hypothesis p_not_one : 1 - p <> 0.

Lemma camber_forward_value (x : R) :
  camber_forward m p x = Ok (m / p ^ 2 * (2 * p * x - x ^ 2)).
Proof.
  unfold camber_forward.
  rewrite truediv_nonzero by (apply pow2_nonzero, p_nonzero). reflexivity.
Qed.

Lemma camber_aft_value (x : R) :
  camber_aft m p x =
  Ok (m / (1 - p) ^ 2 * ((1 - 2 * p) + 2 * p * x - x ^ 2)).
Proof.
  unfold camber_aft.
  rewrite truediv_nonzero by (apply pow2_nonzero, p_not_one). reflexivity.
Qed.

Lemma slope_forward_value (x : R) :
  slope_forward m p x = Ok (2 * m / p ^ 2 * (p - x)).
Proof.
  unfold slope_forward.
  rewrite truediv_nonzero by (apply pow2_nonzero, p_nonzero). reflexivity.
Qed.

Lemma slope_aft_value (x : R) :
  slope_aft m p x = Ok (2 * m / (1 - p) ^ 2 * (p - x)).
Proof.
  unfold slope_aft.
  rewrite truediv_nonzero by (apply pow2_nonzero, p_not_one). reflexivity.
Qed.

(** One turn writes the camber and the slope of sample [i]. *)
Lemma camber_step_writes (done todo F G zs zs' : Np.array) (a u v : R) :
  List.length F = List.length done -> List.length G = List.length done ->
  camber_step m p (done ++ a :: todo) (List.length done)
    (F ++ u :: zs, G ++ v :: zs') =
  Ok (F ++ camber_line m p a :: zs, G ++ camber_slope m p a :: zs').
Proof.
  intros HF HG. unfold camber_step.
  rewrite np_getitem_app. cbn [bind].
  unfold camber_line, camber_slope.
  destruct (Rle_dec a p) as [Hle | Hgt].
  - rewrite camber_forward_value, slope_forward_value. cbn [bind].
    rewrite <- HF at 1. rewrite np_setitem_app. cbn [bind].
    rewrite <- HG at 1. rewrite np_setitem_app. reflexivity.
  - rewrite camber_aft_value, slope_aft_value. cbn [bind].
    rewrite <- HF at 1. rewrite np_setitem_app. cbn [bind].
    rewrite <- HG at 1. rewrite np_setitem_app. reflexivity.
Qed.

Lemma camber_loop_from (todo done : Np.array) :
  for_each (camber_step m p (done ++ todo))
    (seq (List.length done) (List.length todo))
    (map (camber_line m p) done ++ Np.zeros_like todo,
     map (camber_slope m p) done ++ Np.zeros_like todo) =
  Ok (map (camber_line m p) (done ++ todo),
      map (camber_slope m p) (done ++ todo)).
Proof.
  revert done. induction todo as [| a todo IH]; intros done.
  - cbn [List.length seq for_each Np.zeros_like map].
    rewrite !app_nil_r. reflexivity.
  - cbn [List.length seq for_each Np.zeros_like map].
    fold (Np.zeros_like todo).
    rewrite camber_step_writes by apply length_map.
    cbn [bind].
    specialize (IH (done ++ [a])).
    rewrite <- app_assoc in IH. cbn [app] in IH.
    rewrite length_app, !map_app, <- !app_assoc in IH.
    cbn [List.length map app] in IH.
    replace (List.length done + 1)%nat with (S (List.length done)) in IH by lia.
    rewrite IH, !map_app. reflexivity.
Qed.

(** The loop of lines 44-52 computes the camber line and its slope at
    every sample. *)
Lemma camber_loop (x : Np.array) :
  for_each (camber_step m p x) (range (List.length x))
    (Np.zeros_like x, Np.zeros_like x) =
  Ok (map (camber_line m p) x, map (camber_slope m p) x).
Proof.
  exact (camber_loop_from x []).
Qed.

End Loop.

(** With [p = 0] the first turn on a sample [x[0] <= 0] divides by zero. *)
Lemma camber_loop_p_zero (m a : R) (x : Np.array) (st : Np.array * Np.array) :
  a <= 0 ->
  for_each (camber_step m 0 (a :: x)) (range (List.length (a :: x))) st =
  Raise ZeroDivisionError.
Proof.
  intros Ha. destruct st as [yc0 dyc0].
  cbn [List.length range seq for_each]. unfold camber_step.
  change (Np.getitem (a :: x) 0) with (Ok a). cbn [bind].
  destruct (Rle_dec a 0) as [_ | N]; [| contradiction].
  unfold camber_forward.
  rewrite truediv_zero by (simpl; ring). reflexivity.
Qed.

(** ** The arrays of [naca4_coordinates], sample by sample *)

Lemma thickness_pointwise (t : R) (x : Np.array) :
  thickness t x = map (yt_formula t) x.
Proof.
  unfold thickness, Np.scale, Np.sub, Np.add, Np.sqrt, Np.pow.
  induction x as [| a x IH]; cbn [map Np.zip_with].
  - reflexivity.
  - rewrite IH. reflexivity.
Qed.

Lemma xu_pointwise (m p t : R) (x : Np.array) :
  Np.sub x (Np.mul (thickness t x)
                   (Np.sin (Np.arctan (map (camber_slope m p) x)))) =
  map (xu_at m p t) x.
Proof.
  rewrite thickness_pointwise.
  unfold Np.sub, Np.mul, Np.sin, Np.arctan.
  induction x as [| a x IH]; cbn [map Np.zip_with].
  - reflexivity.
  - rewrite IH. reflexivity.
Qed.

Lemma xl_pointwise (m p t : R) (x : Np.array) :
  Np.add x (Np.mul (thickness t x)
                   (Np.sin (Np.arctan (map (camber_slope m p) x)))) =
  map (xl_at m p t) x.
Proof.
  rewrite thickness_pointwise.
  unfold Np.add, Np.mul, Np.sin, Np.arctan.
  induction x as [| a x IH]; cbn [map Np.zip_with].
  - reflexivity.
  - rewrite IH. reflexivity.
Qed.

Lemma yu_pointwise (m p t : R) (x : Np.array) :
  Np.add (map (camber_line m p) x)
         (Np.mul (thickness t x)
                 (Np.cos (Np.arctan (map (camber_slope m p) x)))) =
  map (yu_at m p t) x.
Proof.
  rewrite thickness_pointwise.
  unfold Np.add, Np.mul, Np.cos, Np.arctan.
  induction x as [| a x IH]; cbn [map Np.zip_with].
  - reflexivity.
  - rewrite IH. reflexivity.
Qed.

Lemma yl_pointwise (m p t : R) (x : Np.array) :
  Np.sub (map (camber_line m p) x)
         (Np.mul (thickness t x)
                 (Np.cos (Np.arctan (map (camber_slope m p) x)))) =
  map (yl_at m p t) x.
Proof.
  rewrite thickness_pointwise.
  unfold Np.sub, Np.mul, Np.cos, Np.arctan.
  induction x as [| a x IH]; cbn [map Np.zip_with].
  - reflexivity.
  - rewrite IH. reflexivity.
Qed.

Lemma linspace_chord (num : Z) :
  (0 <= num)%Z -> Np.linspace 0 1 num = Ok (chord (Z.to_nat num)).
Proof. intros H. apply linspace_samples, H. Qed.

(** A run that passes the decoding with [p] neither [0] nor [1]: every
    array is the table of its closed form over the chord samples. *)
Lemma naca4_coordinates_value (number : string) (n_points : Z) (m p t : R) :
  decode number = Ok (m, p, t) -> p <> 0 -> 1 - p <> 0 ->
  (0 <= n_points)%Z ->
  naca4_coordinates number n_points =
  let x := chord (Z.to_nat n_points) in
  Ok {| xu := map (xu_at m p t) x;
        yu := map (yu_at m p t) x;
        xl := map (xl_at m p t) x;
        yl := map (yl_at m p t) x;
        xc := x;
        yc := map (camber_line m p) x |}.
Proof.
  intros Hd Hp Hq Hn. unfold naca4_coordinates.
  rewrite Hd. cbn [bind].
  rewrite (linspace_chord n_points Hn). cbn [bind].
  rewrite (camber_loop m p Hp Hq). cbn [bind].
  rewrite xu_pointwise, xl_pointwise, yu_pointwise, yl_pointwise.
  reflexivity.
Qed.

(** A run that decodes [p = 0] and asks for at least one sample stops at
    the first division of the loop. *)
Lemma naca4_coordinates_p_zero (number : string) (n_points : Z) (m t : R) :
  decode number = Ok (m, 0, t) -> (1 <= n_points)%Z ->
  naca4_coordinates number n_points = Raise ZeroDivisionError.
Proof.
  intros Hd Hn. unfold naca4_coordinates.
  rewrite Hd. cbn [bind].
  rewrite linspace_chord by lia. cbn [bind].
  unfold chord.
  destruct (Z.to_nat n_points) as [| k] eqn:Ek; [lia |].
  cbn [seq map]. rewrite sample_first.
  rewrite camber_loop_p_zero by lra. reflexivity.
Qed.

(** A run whose decoding raises, raises the same exception. *)
Lemma naca4_coordinates_decode_raises (number : string) (n_points : Z) (e : exn) :
  decode number = Raise e -> naca4_coordinates number n_points = Raise e.
Proof.
  intros Hd. unfold naca4_coordinates. rewrite Hd. reflexivity.
Qed.

(** What a successful decoding tells: two leading digits, an integer
    literal after them. *)
Lemma decode_inv (number : string) (m p t : R) :
  decode number = Ok (m, p, t) ->
  exists (a b : ascii) (z : Z),
    String.get 0 number = Some a /\ String.get 1 number = Some b /\
    Py.isdigit a = true /\ Py.isdigit b = true /\
    Py.int (Py.slice_from 2 number) = Ok z /\
    m = IZR (Py.digit_value a) / 100 /\
    p = IZR (Py.digit_value b) / 10 /\
    t = IZR z / 100.
Proof.
  unfold decode, Py.str_getitem. intros H.
  destruct (String.get 0 number) as [a |]; [| discriminate H].
  cbn [bind] in H. rewrite int_one_char in H.
  destruct (Py.isdigit a) eqn:Ha; [| discriminate H].
  cbn [bind] in H.
  pose proof (digit_value_range a Ha) as Ra.
  rewrite int_truediv_small in H by (try lia; lra). cbn [bind] in H.
  destruct (String.get 1 number) as [b |]; [| discriminate H].
  cbn [bind] in H. rewrite int_one_char in H.
  destruct (Py.isdigit b) eqn:Hb; [| discriminate H].
  cbn [bind] in H.
  pose proof (digit_value_range b Hb) as Rb.
  rewrite int_truediv_small in H by (try lia; lra). cbn [bind] in H.
  destruct (int_cases (Py.slice_from 2 number)) as [[z E] | E];
    rewrite E in H; cbn [bind] in H; [| discriminate H].
  destruct (int_truediv_cases z 100) as [E' | E']; [lra | |];
    rewrite E' in H; cbn [bind] in H; [| discriminate H].
  inversion H. exists a, b, z. repeat split; reflexivity || assumption.
Qed.

(** The decoded camber position is one of [0, 0.1, ..., 0.9]. *)
Lemma decode_p_range (number : string) (m p t : R) :
  decode number = Ok (m, p, t) -> p = 0 \/ (1 / 10 <= p /\ p <= 9 / 10).
Proof.
  intros H. destruct (decode_inv number m p t H)
    as (a & b & z & _ & _ & _ & Hb & _ & _ & -> & _).
  pose proof (digit_value_range b Hb) as [Hlo Hhi].
  destruct (Z.eq_dec (Py.digit_value b) 0) as [E | E].
  - left. rewrite E. lra.
  - right. assert (H1 : (1 <= Py.digit_value b)%Z) by lia.
    apply IZR_le in H1. apply IZR_le in Hhi. lra.
Qed.

(** The empty request: no sample, no turn of the loop, six empty arrays. *)
Lemma naca4_coordinates_no_point (number : string) (m p t : R) :
  decode number = Ok (m, p, t) ->
  naca4_coordinates number 0 =
  Ok {| xu := []; yu := []; xl := []; yl := []; xc := []; yc := [] |}.
Proof.
  intros Hd. unfold naca4_coordinates. rewrite Hd. reflexivity.
Qed.

(** Every way a run of [naca4_coordinates] can end. *)
Lemma naca4_coordinates_outcome (number : string) (n_points : Z) :
  (exists e, naca4_coordinates number n_points = Raise e /\
             (e = IndexError \/ e = ValueError \/ e = OverflowError \/
              e = ZeroDivisionError)) \/
  (exists out, naca4_coordinates number n_points = Ok out).
Proof.
  destruct (decode number) as [[[m p] t] | e] eqn:Hd.
  - destruct (Z.ltb_spec n_points 0) as [Hneg | Hpos].
    + left. exists ValueError. split; [| auto].
      unfold naca4_coordinates. rewrite Hd. cbn [bind].
      rewrite linspace_negative by exact Hneg. reflexivity.
    + destruct (decode_p_range number m p t Hd) as [-> | [Hlo Hhi]].
      * destruct (Z.eq_dec n_points 0) as [-> | Hnz].
        -- right. rewrite (naca4_coordinates_no_point number m 0 t Hd).
           eexists. reflexivity.
        -- left. exists ZeroDivisionError. split; [| auto].
           apply (naca4_coordinates_p_zero number n_points m t Hd). lia.
      * right.
        rewrite (naca4_coordinates_value number n_points m p t Hd)
          by (lra || exact Hpos).
        eexists. reflexivity.
  - left. exists e. split.
    + apply naca4_coordinates_decode_raises, Hd.
    + destruct (decode_raises number e Hd) as [-> | [-> | ->]]; auto.
Qed.

(** The decoding, from what the three reads give. *)
Lemma decode_reads (number : string) (a b : ascii) (z : Z) :
  String.get 0 number = Some a -> String.get 1 number = Some b ->
  Py.isdigit a = true -> Py.isdigit b = true ->
  Py.int (Py.slice_from 2 number) = Ok z -> (Z.abs z < 1000)%Z ->
  decode number =
  Ok (IZR (Py.digit_value a) / 100, IZR (Py.digit_value b) / 10, IZR z / 100).
Proof.
  intros G0 G1 Ha Hb Hz Hsmall.
  pose proof (digit_value_range a Ha) as Ra.
  pose proof (digit_value_range b Hb) as Rb.
  unfold decode, Py.str_getitem. rewrite G0, G1. cbn [bind].
  rewrite int_one_char, Ha. cbn [bind].
  rewrite int_truediv_small by (try lia; lra). cbn [bind].
  rewrite int_one_char, Hb. cbn [bind].
  rewrite int_truediv_small by (try lia; lra). cbn [bind].
  rewrite Hz. cbn [bind].
  rewrite int_truediv_small by (try lia; lra). reflexivity.
Qed.

(** A string the decoding refuses: a first or second character that is
    missing or no digit, or a remainder that is no integer literal. *)
Lemma decode_refuses (number : string) :
  (forall c, String.get 0 number = Some c -> Py.isdigit c = false) \/
  (forall c, String.get 1 number = Some c -> Py.isdigit c = false) \/
  Py.int (Py.slice_from 2 number) = Raise ValueError ->
  decode number = Raise IndexError \/ decode number = Raise ValueError.
Proof.
  intros H. unfold decode, Py.str_getitem.
  destruct (String.get 0 number) as [a |]; [| left; reflexivity].
  cbn [bind]. rewrite int_one_char.
  destruct (Py.isdigit a) eqn:Ha; [| right; reflexivity].
  cbn [bind].
  pose proof (digit_value_range a Ha) as Ra.
  rewrite int_truediv_small by (try lia; lra). cbn [bind].
  destruct (String.get 1 number) as [b |]; [| left; reflexivity].
  cbn [bind]. rewrite int_one_char.
  destruct (Py.isdigit b) eqn:Hb; [| right; reflexivity].
  cbn [bind].
  pose proof (digit_value_range b Hb) as Rb.
  rewrite int_truediv_small by (try lia; lra). cbn [bind].
  destruct H as [H | [H | H]].
  - specialize (H a eq_refl). congruence.
  - specialize (H b eq_refl). congruence.
  - rewrite H. right. reflexivity.
Qed.

(** Two leading digits and a remainder that [int] refuses. *)
Lemma decode_tail_refused (number : string) (a b : ascii) :
  String.get 0 number = Some a -> String.get 1 number = Some b ->
  Py.isdigit a = true -> Py.isdigit b = true ->
  Py.int (Py.slice_from 2 number) = Raise ValueError ->
  decode number = Raise ValueError.
Proof.
  intros G0 G1 Ha Hb Hz.
  pose proof (digit_value_range a Ha) as Ra.
  pose proof (digit_value_range b Hb) as Rb.
  unfold decode, Py.str_getitem. rewrite G0, G1. cbn [bind].
  rewrite int_one_char, Ha. cbn [bind].
  rewrite int_truediv_small by (try lia; lra). cbn [bind].
  rewrite int_one_char, Hb. cbn [bind].
  rewrite int_truediv_small by (try lia; lra). cbn [bind].
  rewrite Hz. reflexivity.
Qed.

Lemma decode_4412 : decode "4412" = Ok (4 / 100, 4 / 10, 12 / 100).
Proof.
  exact (decode_four "4" "4" "1" "2" eq_refl eq_refl eq_refl eq_refl).
Qed.

Lemma decode_4012 : decode "4012" = Ok (4 / 100, 0 / 10, 12 / 100).
Proof.
  exact (decode_four "4" "0" "1" "2" eq_refl eq_refl eq_refl eq_refl).
Qed.

Lemma decode_0012 : decode "0012" = Ok (0 / 100, 0 / 10, 12 / 100).
Proof.
  exact (decode_four "0" "0" "1" "2" eq_refl eq_refl eq_refl eq_refl).
Qed.

Lemma decode_4400 : decode "4400" = Ok (4 / 100, 4 / 10, 0 / 100).
Proof.
  exact (decode_four "4" "4" "0" "0" eq_refl eq_refl eq_refl eq_refl).
Qed.

Lemma decode_441 : decode "441" = Ok (4 / 100, 4 / 10, 1 / 100).
Proof.
  exact (decode_reads "441" "4" "4" 1
           eq_refl eq_refl eq_refl eq_refl eq_refl eq_refl).
Qed.

Lemma decode_44a2 : decode "44a2" = Raise ValueError.
Proof.
  exact (decode_tail_refused "44a2" "4" "4"
           eq_refl eq_refl eq_refl eq_refl eq_refl).
Qed.

(** ** The thickness formula on the chord *)

Lemma yt_formula_zero (t : R) : yt_formula t 0 = 0.
Proof. unfold yt_formula. rewrite sqrt_0. ring. Qed.

(** The bracket of the formula in [s = sqrt x]: it is [s] times a factor
    that stays above its value [0.0021] at the trailing edge. *)
Lemma thickness_bracket_nonneg (s : R) :
  0 <= s <= 1 ->
  0 <= 0.2969 * s - 0.1260 * (s * s) - 0.3516 * (s * s) ^ 2
       + 0.2843 * (s * s) ^ 3 - 0.1015 * (s * s) ^ 4.
Proof.
  intros [H0 H1].
  assert (H2 : 0 <= s ^ 2) by nra.
  assert (H2' : s ^ 2 <= 1) by nra.
  assert (H3 : s ^ 3 <= s) by nra.
  assert (H4 : s ^ 4 <= s ^ 2) by nra.
  assert (H5 : 0 <= s ^ 5) by (assert (0 <= s ^ 4) by nra; nra).
  assert (H6 : 0 <= s ^ 6) by nra.
  assert (HB : 0 <= 0.2948 + 0.1688 * (s + s ^ 2) - 0.1828 * (s ^ 3 + s ^ 4)
                    + 0.1015 * (s ^ 5 + s ^ 6)) by lra.
  replace (0.2969 * s - 0.1260 * (s * s) - 0.3516 * (s * s) ^ 2
           + 0.2843 * (s * s) ^ 3 - 0.1015 * (s * s) ^ 4)
    with (s * (0.0021 + (1 - s) *
                 (0.2948 + 0.1688 * (s + s ^ 2) - 0.1828 * (s ^ 3 + s ^ 4)
                  + 0.1015 * (s ^ 5 + s ^ 6)))) by lra.
  apply Rmult_le_pos; [exact H0 |].
  assert (0 <= (1 - s) *
               (0.2948 + 0.1688 * (s + s ^ 2) - 0.1828 * (s ^ 3 + s ^ 4)
                + 0.1015 * (s ^ 5 + s ^ 6))) by (apply Rmult_le_pos; lra).
  lra.
Qed.

Lemma yt_formula_nonneg (t v : R) :
  0 <= t -> 0 <= v <= 1 -> 0 <= yt_formula t v.
Proof.
  intros Ht [Hv0 Hv1].
  remember (sqrt v) as s eqn:Es.
  assert (Hs0 : 0 <= s) by (rewrite Es; apply sqrt_pos).
  assert (Hss : s * s = v) by (rewrite Es; apply sqrt_sqrt; exact Hv0).
  assert (Hs1 : s <= 1) by nra.
  unfold yt_formula. rewrite <- Es, <- Hss.
  apply Rmult_le_pos; [lra |].
  apply thickness_bracket_nonneg. split; assumption.
Qed.

Lemma chord_in_unit (n : nat) : Forall (fun v => 0 <= v <= 1) (chord n).
Proof.
  unfold chord. apply Forall_forall. intros v Hin.
  apply in_map_iff in Hin. destruct Hin as (i & <- & Hi).
  apply in_seq in Hi. apply sample_bounds; [lra | lia].
Qed.

(** ** Tables over a lattice *)

Lemma zip_with_map {A : Type} (f : R -> R -> R) (g h : A -> R) (l : list A) :
  Np.zip_with f (map g l) (map h l) = map (fun v => f (g v) (h v)) l.
Proof.
  induction l as [| a l IH]; cbn [map Np.zip_with].
  - reflexivity.
  - rewrite IH. reflexivity.
Qed.

Lemma zip_with_rows {A : Type} (f : R -> R -> R)
    (g h : A -> Np.array) (l : list A) :
  Np.zip_with (Np.zip_with f) (map g l) (map h l) =
  map (fun v => Np.zip_with f (g v) (h v)) l.
Proof.
  induction l as [| a l IH]; cbn [map Np.zip_with].
  - reflexivity.
  - rewrite IH. reflexivity.
Qed.

Lemma meshgrid_tab (xs ys : Np.array) :
  Np.meshgrid xs ys = (tab (fun x _ => x) xs ys, tab (fun _ y => y) xs ys).
Proof.
  unfold Np.meshgrid, tab. f_equal.
  apply map_ext. intros _. symmetry. apply map_id.
Qed.

Lemma map2d_tab (f : R -> R) (h : R -> R -> R) (xs ys : Np.array) :
  Np.map2d f (tab h xs ys) = tab (fun x y => f (h x y)) xs ys.
Proof.
  unfold Np.map2d, tab. rewrite map_map.
  apply map_ext. intros y. apply map_map.
Qed.

Lemma zip2d_tab (f : R -> R -> R) (h1 h2 : R -> R -> R) (xs ys : Np.array) :
  Np.zip2d f (tab h1 xs ys) (tab h2 xs ys) =
  tab (fun x y => f (h1 x y) (h2 x y)) xs ys.
Proof.
  unfold Np.zip2d, tab. rewrite zip_with_rows.
  apply map_ext. intros y. apply zip_with_map.
Qed.

Lemma tab_shape (h : R -> R -> R) (xs ys : Np.array) :
  Np.shape2 (tab h xs ys) (List.length ys) (List.length xs).
Proof.
  unfold Np.shape2, tab. split.
  - apply length_map.
  - apply Forall_forall. intros row Hin.
    apply in_map_iff in Hin. destruct Hin as (y & <- & _).
    apply length_map.
Qed.

Lemma tab_at (h : R -> R -> R) (xs ys : Np.array) (i j : nat) :
  (i < List.length ys)%nat -> (j < List.length xs)%nat ->
  Np.at2 (tab h xs ys) i j = h (nth j xs 0) (nth i ys 0).
Proof.
  intros Hi Hj. unfold Np.at2, tab.
  rewrite (nth_indep _ [] ((fun y => map (fun x => h x y) xs) 0))
    by (rewrite length_map; exact Hi).
  rewrite (map_nth (fun y => map (fun x => h x y) xs) ys 0 i).
  rewrite (nth_indep _ 0 ((fun x => h x (nth i ys 0)) 0))
    by (rewrite length_map; exact Hj).
  rewrite (map_nth (fun x => h x (nth i ys 0)) xs 0 j). reflexivity.
Qed.

(** ** The arrays of [compute_flow_field], point by point *)

Lemma r2_tab (xs ys : Np.array) :
  r2_of (tab (fun x _ => x) xs ys) (tab (fun _ y => y) xs ys) =
  tab r2_at xs ys.
Proof.
  unfold r2_of, Np.add2, Np.pow2, Np.sub_scalar2.
  rewrite !map2d_tab, zip2d_tab. reflexivity.
Qed.

Lemma u_vortex_tab (xs ys : Np.array) :
  u_vortex_of (tab (fun x _ => x) xs ys) (tab (fun _ y => y) xs ys) =
  tab u_vortex_at xs ys.
Proof.
  unfold u_vortex_of. rewrite r2_tab.
  unfold Np.scale2, Np.div2, Np.add_scalar2.
  rewrite map2d_tab, zip2d_tab, map2d_tab. reflexivity.
Qed.

Lemma v_vortex_tab (xs ys : Np.array) :
  v_vortex_of (tab (fun x _ => x) xs ys) (tab (fun _ y => y) xs ys) =
  tab v_vortex_at xs ys.
Proof.
  unfold v_vortex_of. rewrite r2_tab.
  unfold Np.scale2, Np.div2, Np.add_scalar2, Np.sub_scalar2.
  rewrite !map2d_tab, zip2d_tab, map2d_tab. reflexivity.
Qed.

(** The samples of the two axes. *)
Lemma compute_flow_field_value (self : FlowSolver) (grid_res : Z) :
  (0 <= grid_res)%Z ->
  compute_flow_field self grid_res =
  let n := Z.to_nat grid_res in
  let xs := map (sample (-0.5) 1.5 n) (seq 0 n) in
  let ys := map (sample (-0.8) 0.8 n) (seq 0 n) in
  Ok {| fX := tab (fun x _ => x) xs ys;
        fY := tab (fun _ y => y) xs ys;
        fU := tab (U_at (alpha self)) xs ys;
        fV := tab (V_at (alpha self)) xs ys;
        fCp := tab (Cp_at (alpha self)) xs ys |}.
Proof.
  intros Hg. unfold compute_flow_field.
  rewrite !(linspace_samples _ _ grid_res Hg). cbn [bind].
  rewrite meshgrid_tab, u_vortex_tab, v_vortex_tab.
  unfold Np.radd_scalar2, Np.rsub_scalar2, Np.sqrt2, Np.add2, Np.pow2.
  rewrite !map2d_tab, zip2d_tab, !map2d_tab. reflexivity.
Qed.

Lemma compute_flow_field_negative (self : FlowSolver) (grid_res : Z) :
  (grid_res < 0)%Z -> compute_flow_field self grid_res = Raise ValueError.
Proof.
  intros Hg. unfold compute_flow_field.
  rewrite linspace_negative by exact Hg. reflexivity.
Qed.

(** ** The regularised vortex *)

Lemma r2_at_nonneg (x y : R) : 0 <= r2_at x y.
Proof. unfold r2_at. apply Rplus_le_le_0_compat; apply pow2_ge_0. Qed.

Lemma vortex_denominator_pos (x y : R) : 0.05 <= r2_at x y + 0.05.
Proof. pose proof (r2_at_nonneg x y). lra. Qed.

Lemma circulation_factor_bounds : 0 < gamma / (2 * PI) < 2.5 / 6.
Proof.
  pose proof PI2_3_2 as Hpi. unfold gamma.
  assert (H6 : 6 < 2 * PI) by lra.
  split.
  - apply Rmult_lt_0_compat; [lra | apply Rinv_0_lt_compat; lra].
  - apply Rmult_lt_compat_l; [lra |].
    apply Rinv_lt_contravar; [nra | exact H6].
Qed.

(** A ratio [w / d] with [|w| <= 2.24 d] and [d > 0] stays within [2.24];
    scaled by the circulation factor it stays within [1]. *)
Lemma scaled_ratio_bound (c w d : R) :
  0 < c < 2.5 / 6 -> 0 < d -> - (2.24 * d) <= w <= 2.24 * d ->
  Rabs (c * (w / d)) <= 1.
Proof.
  intros [Hc0 Hc1] Hd [Hlo Hhi].
  assert (Hq : w / d * d = w) by (field; lra).
  assert (Hq1 : w / d <= 2.24).
  { apply (Rmult_le_reg_r d); [exact Hd | lra]. }
  assert (Hq0 : - 2.24 <= w / d).
  { apply (Rmult_le_reg_r d); [exact Hd | lra]. }
  apply Rabs_le. split; nra.
Qed.

(** [|w| <= 2.24 (w^2 + 0.05)], hence the same with any larger
    denominator. *)
Lemma within_denominator (w d : R) :
  w ^ 2 + 0.05 <= d -> - (2.24 * d) <= w <= 2.24 * d.
Proof.
  intros Hd.
  pose proof (pow2_ge_0 (w - 25 / 112)) as H1.
  pose proof (pow2_ge_0 (w + 25 / 112)) as H2.
  split; nra.
Qed.

Lemma u_vortex_bound (x y : R) : Rabs (u_vortex_at x y) <= 1.
Proof.
  unfold u_vortex_at.
  apply scaled_ratio_bound.
  - exact circulation_factor_bounds.
  - pose proof (vortex_denominator_pos x y). lra.
  - apply within_denominator. unfold r2_at.
    pose proof (pow2_ge_0 (x - 0.25)). lra.
Qed.

Lemma v_vortex_bound (x y : R) : Rabs (v_vortex_at x y) <= 1.
Proof.
  unfold v_vortex_at.
  replace (- (gamma / (2 * PI)) * ((x - 0.25) / (r2_at x y + 0.05)))
    with (- (gamma / (2 * PI) * ((x - 0.25) / (r2_at x y + 0.05)))) by ring.
  rewrite Rabs_Ropp.
  apply scaled_ratio_bound.
  - exact circulation_factor_bounds.
  - pose proof (vortex_denominator_pos x y). lra.
  - apply within_denominator. unfold r2_at.
    pose proof (pow2_ge_0 y). lra.
Qed.

Lemma vortex_at_centre :
  r2_at 0.25 0 = 0 /\ u_vortex_at 0.25 0 = 0 /\ v_vortex_at 0.25 0 = 0.
Proof.
  assert (H0 : r2_at 0.25 0 = 0) by (unfold r2_at; lra).
  unfold u_vortex_at, v_vortex_at. rewrite H0.
  replace (0.25 - 0.25) with 0 by lra. unfold Rdiv.
  repeat split; ring.
Qed.

(** ** Claims on [FlowSolver] *)

Lemma compute_flow_field_inv (self : FlowSolver) (grid_res : Z) (out : flow_field) :
  compute_flow_field self grid_res = Ok out ->
  (0 <= grid_res)%Z /\
  let n := Z.to_nat grid_res in
  let xs := map (sample (-0.5) 1.5 n) (seq 0 n) in
  let ys := map (sample (-0.8) 0.8 n) (seq 0 n) in
  out = {| fX := tab (fun x _ => x) xs ys;
           fY := tab (fun _ y => y) xs ys;
           fU := tab (U_at (alpha self)) xs ys;
           fV := tab (V_at (alpha self)) xs ys;
           fCp := tab (Cp_at (alpha self)) xs ys |}.
Proof.
  intros H. destruct (Z.ltb_spec grid_res 0) as [Hneg | Hpos].
  - rewrite (compute_flow_field_negative self grid_res Hneg) in H.
    discriminate H.
  - split; [exact Hpos |].
    rewrite (compute_flow_field_value self grid_res Hpos) in H.
    cbv zeta in H. inversion H. reflexivity.
Qed.

Lemma axis_length (a b : R) (n : nat) :
  List.length (map (sample a b n) (seq 0 n)) = n.
Proof. rewrite length_map, length_seq. reflexivity. Qed.

Lemma axis_nth (a b : R) (n i : nat) :
  (i < n)%nat -> nth i (map (sample a b n) (seq 0 n)) 0 = sample a b n i.
Proof.
  intros Hi.
  rewrite (nth_indep _ 0 (sample a b n 0)) by (rewrite axis_length; exact Hi).
  rewrite map_nth, seq_nth by exact Hi. reflexivity.
Qed.

(** C4, as the code has it: [compute_flow_field] has no check of its
    own on [grid_res].  With [grid_res = 0] it returns five empty arrays;
    with [grid_res < 0] it fails with the [ValueError] of [np.linspace]
    and returns nothing; with [grid_res > 0] it returns its five arrays.
    It never raises [InvalidGridResolution]. *)
Theorem C4_grid_resolution_outcomes (self : FlowSolver) (grid_res : Z) :
  (grid_res = 0%Z ->
   compute_flow_field self grid_res =
   Ok {| fX := []; fY := []; fU := []; fV := []; fCp := [] |}) /\
  ((grid_res < 0)%Z -> compute_flow_field self grid_res = Raise ValueError) /\
  ((0 < grid_res)%Z -> exists out, compute_flow_field self grid_res = Ok out) /\
  compute_flow_field self grid_res <> Raise InvalidGridResolution.
Proof.
  repeat split.
  - intros ->. reflexivity.
  - apply compute_flow_field_negative.
  - intros Hg. rewrite compute_flow_field_value by lia.
    eexists. reflexivity.
  - destruct (Z.ltb_spec grid_res 0) as [Hneg | Hpos].
    + rewrite compute_flow_field_negative by exact Hneg. discriminate.
    + rewrite compute_flow_field_value by exact Hpos. discriminate.
Qed.

Lemma C4_grid_resolution_outcomes_witness :
  compute_flow_field (init "4412" 6 1000000) (-1) = Raise ValueError /\
  exists out, compute_flow_field (init "4412" 6 1000000) 200 = Ok out.
Proof.
  split.
  - apply (C4_grid_resolution_outcomes (init "4412" 6 1000000) (-1)). lia.
  - apply (C4_grid_resolution_outcomes (init "4412" 6 1000000) 200). lia.
Defined.

(** C4 as stated fails at [grid_res = 0]: the call raises nothing and
    returns five empty arrays. *)
Lemma C4_counterexample_zero_resolution :
  compute_flow_field (init "4412" 6 1000000) 0 =
    Ok {| fX := []; fY := []; fU := []; fV := []; fCp := [] |} /\
  compute_flow_field (init "4412" 6 1000000) 0 <> Raise InvalidGridResolution.
Proof.
  split; [reflexivity | discriminate].
Qed.

(** C5: at every grid point of [compute_flow_field] the denominator
    [r2 + 0.05] is [(x - 0.25)^2 + y^2 + 0.05], which is positive; the
    induced velocities are [(gamma / 2 pi) y / (r2 + 0.05)] and
    [- (gamma / 2 pi) (x - 0.25) / (r2 + 0.05)], each of magnitude at
    most [1]; [U] and [V] add them to the free stream. *)
Theorem C5_vortex_regularised (self : FlowSolver) (grid_res : Z)
    (out : flow_field) (i j : nat) :
  compute_flow_field self grid_res = Ok out ->
  (i < Z.to_nat grid_res)%nat -> (j < Z.to_nat grid_res)%nat ->
  let x := Np.at2 (fX out) i j in
  let y := Np.at2 (fY out) i j in
  let d := (x - 0.25) ^ 2 + y ^ 2 + 0.05 in
  let u_v := Np.at2 (u_vortex_of (fX out) (fY out)) i j in
  let v_v := Np.at2 (v_vortex_of (fX out) (fY out)) i j in
  Np.at2 (Np.add_scalar2 (r2_of (fX out) (fY out)) 0.05) i j = d /\
  0 < d /\
  u_v = gamma / (2 * PI) * (y / d) /\
  v_v = - (gamma / (2 * PI)) * ((x - 0.25) / d) /\
  Rabs u_v <= 1 /\ Rabs v_v <= 1 /\
  Np.at2 (fU out) i j = cos (alpha self) + u_v /\
  Np.at2 (fV out) i j = sin (alpha self) + v_v.
Proof.
  intros H Hi Hj.
  destruct (compute_flow_field_inv self grid_res out H) as [Hg ->].
  cbv zeta. cbn [fX fY fU fV].
  set (n := Z.to_nat grid_res) in *.
  set (xs := map (sample (-0.5) 1.5 n) (seq 0 n)).
  set (ys := map (sample (-0.8) 0.8 n) (seq 0 n)).
  assert (Lx : List.length xs = n) by apply axis_length.
  assert (Ly : List.length ys = n) by apply axis_length.
  rewrite r2_tab, u_vortex_tab, v_vortex_tab.
  unfold Np.add_scalar2. rewrite map2d_tab.
  rewrite !tab_at by lia.
  pose proof (vortex_denominator_pos (nth j xs 0) (nth i ys 0)) as Hd.
  repeat split.
  - unfold r2_at in Hd |- *. lra.
  - apply u_vortex_bound.
  - apply v_vortex_bound.
Qed.

(** The vortex centre is a point of the 9 x 9 grid, row 4 and column 3;
    there the denominator is [0.05] and both induced velocities are [0]. *)
Lemma C5_vortex_regularised_witness :
  exists out,
    compute_flow_field (init "4412" 6 1000000) 9 = Ok out /\
    Np.at2 (fX out) 4 3 = 0.25 /\ Np.at2 (fY out) 4 3 = 0 /\
    Np.at2 (Np.add_scalar2 (r2_of (fX out) (fY out)) 0.05) 4 3 = 0.05 /\
    Np.at2 (u_vortex_of (fX out) (fY out)) 4 3 = 0 /\
    Np.at2 (v_vortex_of (fX out) (fY out)) 4 3 = 0.
Proof.
  pose proof (compute_flow_field_value (init "4412" 6 1000000) 9) as Hv.
  cbv zeta in Hv.
  match type of Hv with _ -> _ = Ok ?o => exists o end.
  assert (Hrun := Hv ltac:(lia)).
  assert (H4 : (4 < Z.to_nat 9)%nat) by (simpl; lia).
  assert (H3 : (3 < Z.to_nat 9)%nat) by (simpl; lia).
  pose proof (C5_vortex_regularised _ 9 _ 4 3 Hrun H4 H3) as Hc.
  cbv zeta in Hc. cbn [fX fY fU fV] in Hc |- *.
  assert (Lx : List.length (map (sample (-0.5) 1.5 (Z.to_nat 9))
                              (seq 0 (Z.to_nat 9))) = Z.to_nat 9)
    by apply axis_length.
  assert (Ly : List.length (map (sample (-0.8) 0.8 (Z.to_nat 9))
                              (seq 0 (Z.to_nat 9))) = Z.to_nat 9)
    by apply axis_length.
  rewrite !tab_at in Hc |- * by lia.
  rewrite !axis_nth in Hc |- * by assumption.
  assert (Ex : sample (-0.5) 1.5 (Z.to_nat 9) 3 = 0.25).
  { unfold sample. change (Z.to_nat 9 - 1)%nat with 8%nat.
    change (INR 3) with (IZR 3) || rewrite (INR_IZR_INZ 3).
    rewrite (INR_IZR_INZ 8). simpl Z.of_nat. lra. }
  assert (Ey : sample (-0.8) 0.8 (Z.to_nat 9) 4 = 0).
  { unfold sample. change (Z.to_nat 9 - 1)%nat with 8%nat.
    rewrite (INR_IZR_INZ 4), (INR_IZR_INZ 8). simpl Z.of_nat. lra. }
  rewrite Ex, Ey in Hc |- *.
  destruct Hc as (Hd & _ & Hu & Hw & _).
  split; [exact Hrun |]. split; [reflexivity |]. split; [reflexivity |].
  split; [rewrite Hd; lra |].
  split.
  - rewrite Hu. unfold Rdiv. ring.
  - rewrite Hw. replace (0.25 - 0.25) with 0 by lra. unfold Rdiv. ring.
Defined.

(** C8: for [grid_res = g > 0] the five arrays have [g] rows of [g]
    entries; [X[i][j]] is the [j]-th of [g] uniform samples of
    [[-0.5, 1.5]] whatever the row [i], and [Y[i][j]] the [i]-th of [g]
    uniform samples of [[-0.8, 0.8]] whatever the column [j]. *)
Theorem C8_grid_shape (self : FlowSolver) (grid_res : Z) :
  (0 < grid_res)%Z ->
  exists out,
    compute_flow_field self grid_res = Ok out /\
    let g := Z.to_nat grid_res in
    Np.shape2 (fX out) g g /\ Np.shape2 (fY out) g g /\
    Np.shape2 (fU out) g g /\ Np.shape2 (fV out) g g /\
    Np.shape2 (fCp out) g g /\
    forall i j, (i < g)%nat -> (j < g)%nat ->
      Np.at2 (fX out) i j = -0.5 + INR j * ((1.5 - -0.5) / INR (g - 1)) /\
      Np.at2 (fY out) i j = -0.8 + INR i * ((0.8 - -0.8) / INR (g - 1)) /\
      -0.5 <= Np.at2 (fX out) i j <= 1.5 /\
      -0.8 <= Np.at2 (fY out) i j <= 0.8.
Proof.
  intros Hg.
  pose proof (compute_flow_field_value self grid_res ltac:(lia)) as Hv.
  cbv zeta in Hv.
  match type of Hv with _ = Ok ?o => exists o end.
  split; [exact Hv |].
  cbv zeta. cbn [fX fY fU fV fCp].
  set (g := Z.to_nat grid_res).
  set (xs := map (sample (-0.5) 1.5 g) (seq 0 g)).
  set (ys := map (sample (-0.8) 0.8 g) (seq 0 g)).
  assert (Lx : List.length xs = g) by apply axis_length.
  assert (Ly : List.length ys = g) by apply axis_length.
  assert (Hs : forall h, Np.shape2 (tab h xs ys) g g).
  { intros h. pose proof (tab_shape h xs ys) as Hsh.
    rewrite Lx, Ly in Hsh. exact Hsh. }
  repeat (split; [apply Hs |]).
  intros i j Hi Hj.
  rewrite !tab_at by lia.
  unfold xs, ys. rewrite !axis_nth by assumption.
  pose proof (sample_bounds (-0.5) 1.5 g j ltac:(lra) Hj) as Bx.
  pose proof (sample_bounds (-0.8) 0.8 g i ltac:(lra) Hi) as By.
  repeat split; try reflexivity; lra.
Qed.

Lemma C8_grid_shape_witness :
  exists out,
    compute_flow_field (init "4412" 6 1000000) 200 = Ok out /\
    Np.shape2 (fX out) 200 200 /\ Np.shape2 (fCp out) 200 200.
Proof.
  destruct (C8_grid_shape (init "4412" 6 1000000) 200 ltac:(lia))
    as (out & Hrun & Hrest).
  cbv zeta in Hrest.
  change (Z.to_nat 200) with 200%nat in Hrest.
  exists out. split; [exact Hrun |].
  split; [apply Hrest | apply Hrest].
Defined.

(** C9: [__init__] stores [reynolds] in [Re], and no output reads it:
    two solvers with the same [alpha] (and the same [code]) return the
    same flow field and the same geometry whatever their [Re]. *)
Theorem C9_reynolds_inert (s1 s2 : FlowSolver) (grid_res n_points : Z) :
  code s1 = code s2 -> alpha s1 = alpha s2 ->
  (forall c a r, Re (init c a r) = r) /\
  compute_flow_field s1 grid_res = compute_flow_field s2 grid_res /\
  naca4_geometry s1 n_points = naca4_geometry s2 n_points.
Proof.
  intros _ Ha. split; [reflexivity |]. split.
  - unfold compute_flow_field. rewrite Ha. reflexivity.
  - reflexivity.
Qed.

Lemma C9_reynolds_inert_witness :
  Re (init "4412" 6 1000000) <> Re (init "4412" 6 500000) /\
  compute_flow_field (init "4412" 6 1000000) 200 =
  compute_flow_field (init "4412" 6 500000) 200 /\
  naca4_geometry (init "4412" 6 1000000) 100 =
  naca4_geometry (init "4412" 6 500000) 100.
Proof.
  split.
  - cbn [Re init]. lra.
  - apply (C9_reynolds_inert (init "4412" 6 1000000) (init "4412" 6 500000)
             200 100 eq_refl eq_refl).
Defined.

(** The vectorised camber of [naca4_geometry], sample by sample. *)
Lemma where_camber (p qf qa : R) (x : Np.array) :
  Np.where_ (Np.le_scalar x p)
    (Np.scale qf (Np.sub (Np.scale (2 * p) x) (Np.pow x 2)))
    (Np.scale qa
       (Np.sub (Np.adds (1 - 2 * p) (Np.scale (2 * p) x)) (Np.pow x 2))) =
  map (fun v => if Rle_dec v p
                then qf * (2 * p * v - v ^ 2)
                else qa * ((1 - 2 * p) + 2 * p * v - v ^ 2)) x.
Proof.
  unfold Np.le_scalar, Np.scale, Np.sub, Np.adds, Np.pow.
  induction x as [| a x IH]; cbn [map Np.zip_with Np.where_].
  - reflexivity.
  - rewrite IH. destruct (Rle_dec a p); reflexivity.
Qed.

(** The geometry of the solver on the chord samples. *)
Lemma naca4_geometry_value (self : FlowSolver) (n_points : Z) :
  (0 <= n_points)%Z ->
  naca4_geometry self n_points =
  let x := chord (Z.to_nat n_points) in
  Ok (x, map (camber_line 0.04 0.4) x, map (yt_formula 0.12) x).
Proof.
  intros Hn. unfold naca4_geometry.
  rewrite (linspace_chord n_points Hn). cbn [bind].
  rewrite !truediv_nonzero by (apply pow2_nonzero; lra). cbn [bind].
  cbv zeta. rewrite thickness_pointwise, where_camber. reflexivity.
Qed.

(** C10: [naca4_geometry] never reads [self]: two solvers built with
    different codes return the same arrays, those of m = 0.04, p = 0.4
    and t = 0.12. *)
Theorem C10_geometry_ignores_code (s1 s2 : FlowSolver) (n_points : Z) :
  naca4_geometry s1 n_points = naca4_geometry s2 n_points /\
  ((0 <= n_points)%Z ->
   naca4_geometry s1 n_points =
   Ok (chord (Z.to_nat n_points),
       map (camber_line 0.04 0.4) (chord (Z.to_nat n_points)),
       map (yt_formula 0.12) (chord (Z.to_nat n_points)))) /\
  ((n_points < 0)%Z -> naca4_geometry s1 n_points = Raise ValueError).
Proof.
  split; [reflexivity |]. split.
  - intros Hn. apply (naca4_geometry_value s1 n_points Hn).
  - intros Hn. unfold naca4_geometry.
    rewrite linspace_negative by exact Hn. reflexivity.
Qed.

Lemma C10_geometry_ignores_code_witness :
  naca4_geometry (init "0012" 6 1000000) 100 =
  naca4_geometry (init "4412" 6 1000000) 100 /\
  naca4_geometry (init "0012" 6 1000000) 100 =
  Ok (chord (Z.to_nat 100),
      map (camber_line 0.04 0.4) (chord (Z.to_nat 100)),
      map (yt_formula 0.12) (chord (Z.to_nat 100))).
Proof.
  split.
  - apply (C10_geometry_ignores_code (init "0012" 6 1000000)
             (init "4412" 6 1000000) 100).
  - apply (C10_geometry_ignores_code (init "0012" 6 1000000)
             (init "4412" 6 1000000) 100). lia.
Defined.

(** ** Claims on [naca4_coordinates] *)

(** C1, as the code has it: the source has no guard on [p = 0] and no
    [DegenerateCamberPosition].  A designation that decodes to a nonzero
    camber [m] at position [p = 0] is refused all the same when at least
    one sample is asked for: the first sample is [x = 0 <= p], the
    forward branch evaluates [m / p ** 2] and the run ends with
    [ZeroDivisionError], no array returned. *)
Theorem C1_camber_position_zero (number : string) (n_points : Z) (m p t : R) :
  decode number = Ok (m, p, t) -> p = 0 -> m <> 0 -> (1 <= n_points)%Z ->
  camber_forward m p 0 = Raise ZeroDivisionError /\
  naca4_coordinates number n_points = Raise ZeroDivisionError.
Proof.
  intros Hd -> _ Hn. split.
  - unfold camber_forward. rewrite truediv_zero by (simpl; ring). reflexivity.
  - apply (naca4_coordinates_p_zero number n_points m t Hd Hn).
Qed.

Lemma decode_2015 : decode "2015" = Ok (2 / 100, 0 / 10, 15 / 100).
Proof.
  exact (decode_four "2" "0" "1" "5" eq_refl eq_refl eq_refl eq_refl).
Qed.

Lemma C1_camber_position_zero_witness :
  naca4_coordinates "2015" 100 = Raise ZeroDivisionError.
Proof.
  apply (C1_camber_position_zero "2015" 100 (2 / 100) (0 / 10) (15 / 100)
           decode_2015); [lra | lra | lia].
Defined.

(** C1 as stated fails at ["4012"] with the default 200 points: the run
    ends with [ZeroDivisionError], which is the division by [p ** 2 = 0]
    being evaluated, and not with [DegenerateCamberPosition]; nor does
    it return a camber line. *)
Lemma C1_counterexample_4012 :
  naca4_coordinates "4012" 200 = Raise ZeroDivisionError /\
  ~ (naca4_coordinates "4012" 200 = Raise DegenerateCamberPosition \/
     exists out, naca4_coordinates "4012" 200 = Ok out).
Proof.
  assert (H : naca4_coordinates "4012" 200 = Raise ZeroDivisionError).
  { apply (naca4_coordinates_p_zero "4012" 200 (4 / 100) (12 / 100)); [| lia].
    rewrite decode_4012. do 3 f_equal. lra. }
  split; [exact H |].
  rewrite H. intros [N | [out N]]; discriminate N.
Qed.

(** C2, as the code has it: [naca4_coordinates] checks neither the
    length nor the ranges and never raises [InvalidDesignation].  It
    fails before any output, with [IndexError] or [ValueError], on every
    string whose first or second character is missing or no decimal
    digit, or whose remainder from index 2 is no integer literal; so
    ["44a2"] raises [ValueError].  The three-character ["441"] is
    accepted as m = 0.04, p = 0.4, t = 0.01, and the zero thickness of
    ["4400"] is accepted too. *)
Theorem C2_decoding_failures (number : string) (n_points : Z) :
  ((forall c, String.get 0 number = Some c -> Py.isdigit c = false) \/
   (forall c, String.get 1 number = Some c -> Py.isdigit c = false) \/
   Py.int (Py.slice_from 2 number) = Raise ValueError ->
   naca4_coordinates number n_points = Raise IndexError \/
   naca4_coordinates number n_points = Raise ValueError) /\
  naca4_coordinates number n_points <> Raise InvalidDesignation /\
  naca4_coordinates "44a2" n_points = Raise ValueError /\
  decode "441" = Ok (4 / 100, 4 / 10, 1 / 100) /\
  decode "4400" = Ok (4 / 100, 4 / 10, 0 / 100) /\
  ((0 <= n_points)%Z ->
   (exists out, naca4_coordinates "441" n_points = Ok out) /\
   (exists out, naca4_coordinates "4400" n_points = Ok out)).
Proof.
  split; [| split; [| split; [| split; [| split]]]].
  - intros H. destruct (decode_refuses number H) as [E | E];
      [left | right]; apply naca4_coordinates_decode_raises, E.
  - destruct (naca4_coordinates_outcome number n_points)
      as [(e & -> & [-> | [-> | [-> | ->]]]) | (out & ->)]; discriminate.
  - apply naca4_coordinates_decode_raises, decode_44a2.
  - exact decode_441.
  - exact decode_4400.
  - intros Hn. split.
    + rewrite (naca4_coordinates_value "441" n_points _ _ _ decode_441)
        by (lra || exact Hn).
      eexists. reflexivity.
    + rewrite (naca4_coordinates_value "4400" n_points _ _ _ decode_4400)
        by (lra || exact Hn).
      eexists. reflexivity.
Qed.

Lemma C2_decoding_failures_witness :
  naca4_coordinates "4x12" 200 = Raise IndexError \/
  naca4_coordinates "4x12" 200 = Raise ValueError.
Proof.
  apply (proj1 (C2_decoding_failures "4x12" 200)).
  right. left. intros c Hc. inversion Hc. reflexivity.
Defined.

(** C2 as stated fails at ["441"]: the call returns its six arrays. *)
Lemma C2_counterexample_441 :
  (exists out, naca4_coordinates "441" 200 = Ok out) /\
  naca4_coordinates "441" 200 <> Raise InvalidDesignation.
Proof.
  assert (H : exists out, naca4_coordinates "441" 200 = Ok out).
  { rewrite (naca4_coordinates_value "441" 200 _ _ _ decode_441)
      by (lra || lia).
    eexists. reflexivity. }
  split; [exact H |].
  destruct H as [out ->]. discriminate.
Qed.

(** C3 at ["0012"], the symmetric section the claim names, with the
    default 200 points: the run ends with [ZeroDivisionError] at the
    first sample and returns no array. *)
Theorem C3_symmetric_0012_raises :
  naca4_coordinates "0012" 200 = Raise ZeroDivisionError.
Proof.
  apply (naca4_coordinates_p_zero "0012" 200 (0 / 100) (12 / 100)); [| lia].
  rewrite decode_0012. do 3 f_equal. lra.
Qed.

(** Away from [p = 0] a symmetric designation gives what C3 says: a zero
    camber line and mirrored surfaces. *)
Lemma symmetric_section_mirror (number : string) (n_points : Z) (m p t : R) :
  decode number = Ok (m, p, t) -> m = 0 -> p <> 0 -> (0 <= n_points)%Z ->
  exists out,
    naca4_coordinates number n_points = Ok out /\
    Forall (fun v => v = 0) (yc out) /\
    xu out = xl out /\
    yu out = map Ropp (yl out).
Proof.
  intros Hd -> Hp Hn.
  destruct (decode_p_range number 0 p t Hd) as [E | [Hlo Hhi]];
    [contradiction |].
  rewrite (naca4_coordinates_value number n_points 0 p t Hd) by (lra || exact Hn).
  cbv zeta. eexists. split; [reflexivity |]. cbn [xu yu xl yl yc].
  assert (Hc : forall v, camber_line 0 p v = 0).
  { intros v. unfold camber_line. destruct (Rle_dec v p); unfold Rdiv; ring. }
  assert (Hs : forall v, theta_at 0 p v = 0).
  { intros v. unfold theta_at, camber_slope.
    replace (if Rle_dec v p then 2 * 0 / p ^ 2 * (p - v)
             else 2 * 0 / (1 - p) ^ 2 * (p - v)) with 0
      by (destruct (Rle_dec v p); unfold Rdiv; ring).
    exact atan_0. }
  split; [| split].
  - apply Forall_forall. intros v Hin.
    apply in_map_iff in Hin. destruct Hin as (w & <- & _). apply Hc.
  - apply map_ext. intros v. unfold xu_at, xl_at. rewrite Hs, sin_0. ring.
  - rewrite map_map. apply map_ext. intros v.
    unfold yu_at, yl_at. rewrite Hs, Hc, cos_0. ring.
Qed.

(** C6: for every designation that decodes with [0 < p < 1] the forward
    and the aft camber formulas both give [m] at [x = p]; for ["4412"]
    the two values at [x = 0.4] differ by [1e-9] at most. *)
Theorem C6_camber_continuity :
  (forall number m p t,
     decode number = Ok (m, p, t) -> 0 < p < 1 ->
     camber_forward m p p = Ok m /\ camber_aft m p p = Ok m) /\
  (exists m p t f a,
     decode "4412" = Ok (m, p, t) /\
     camber_forward m p 0.4 = Ok f /\ camber_aft m p 0.4 = Ok a /\
     Rabs (f - a) <= 1e-9).
Proof.
  assert (Hgen : forall m p, 0 < p < 1 ->
            camber_forward m p p = Ok m /\ camber_aft m p p = Ok m).
  { intros m p [Hp0 Hp1].
    rewrite camber_forward_value, camber_aft_value by lra.
    split; f_equal; field; lra. }
  split.
  - intros number m p t _ Hp. apply Hgen, Hp.
  - exists (4 / 100), (4 / 10), (12 / 100), (4 / 100), (4 / 100).
    replace 0.4 with (4 / 10) by lra.
    destruct (Hgen (4 / 100) (4 / 10)) as [Hf Ha]; [lra |].
    repeat split; [exact decode_4412 | exact Hf | exact Ha |].
    replace (4 / 100 - 4 / 100) with 0 by lra. rewrite Rabs_R0. lra.
Qed.

Lemma C6_camber_continuity_witness :
  camber_forward (2 / 100) (4 / 10) (4 / 10) = Ok (2 / 100) /\
  camber_aft (2 / 100) (4 / 10) (4 / 10) = Ok (2 / 100).
Proof.
  apply (proj1 C6_camber_continuity "2412"%string (2 / 100) (4 / 10) (12 / 100)).
  - exact (decode_four "2" "4" "1" "2" eq_refl eq_refl eq_refl eq_refl).
  - lra.
Defined.

(** ** Binary64 checks of the camber continuity *)

(** In binary64 the two branches of ["4412"] give the same float at the
    split point. *)
Lemma binary64_gap_4412 : Binary64.gap 4 4 = PrimFloat.zero.
Proof. vm_compute. reflexivity. Qed.

(** For every camber digit and every camber position digit from 1 to 9
    the two branches agree within [1e-9] at the split point. *)
Lemma binary64_continuity_all_digits :
  forallb
    (fun dm => forallb (Binary64.within_tolerance dm) [1; 2; 3; 4; 5; 6; 7; 8; 9]%Z)
    [0; 1; 2; 3; 4; 5; 6; 7; 8; 9]%Z = true.
Proof. vm_compute. reflexivity. Qed.

(** * Further properties of [naca4_coordinates] *)

Lemma map_nth_in {A : Type} (f : A -> R) (l : list A) (d : A) (i : nat) :
  (i < List.length l)%nat -> nth i (map f l) 0 = f (nth i l d).
Proof.
  intros Hi. rewrite (nth_indep _ 0 (f d)) by (rewrite length_map; exact Hi).
  apply map_nth.
Qed.

Lemma chord_length (n : nat) : List.length (chord n) = n.
Proof. apply axis_length. Qed.

Lemma chord_nth (n i : nat) : (i < n)%nat -> nth i (chord n) 0 = sample 0 1 n i.
Proof. apply axis_nth. Qed.

(** A successful run: the designation decoded, the count was not
    negative, [p = 0] only with no sample at all, and the six arrays are
    the tables of the closed forms over the chord. *)
Lemma naca4_coordinates_inv (number : string) (n_points : Z) (out : coordinates) :
  naca4_coordinates number n_points = Ok out ->
  exists m p t,
    decode number = Ok (m, p, t) /\ (0 <= n_points)%Z /\
    (p = 0 -> n_points = 0%Z) /\
    out = {| xu := map (xu_at m p t) (chord (Z.to_nat n_points));
             yu := map (yu_at m p t) (chord (Z.to_nat n_points));
             xl := map (xl_at m p t) (chord (Z.to_nat n_points));
             yl := map (yl_at m p t) (chord (Z.to_nat n_points));
             xc := chord (Z.to_nat n_points);
             yc := map (camber_line m p) (chord (Z.to_nat n_points)) |}.
Proof.
  intros H. destruct (decode number) as [[[m p] t] | e] eqn:Hd.
  - exists m, p, t. split; [reflexivity |].
    destruct (Z.ltb_spec n_points 0) as [Hneg | Hpos].
    + unfold naca4_coordinates in H. rewrite Hd in H. cbn [bind] in H.
      rewrite linspace_negative in H by exact Hneg. discriminate H.
    + split; [exact Hpos |].
      destruct (decode_p_range number m p t Hd) as [-> | [Hlo Hhi]].
      * destruct (Z.eq_dec n_points 0) as [-> | Hnz].
        -- split; [reflexivity |].
           rewrite (naca4_coordinates_no_point number m 0 t Hd) in H.
           inversion H. reflexivity.
        -- rewrite (naca4_coordinates_p_zero number n_points m t Hd) in H
             by lia.
           discriminate H.
      * split; [intros E; lra |].
        rewrite (naca4_coordinates_value number n_points m p t Hd) in H
          by (lra || exact Hpos).
        cbv zeta in H. inversion H. reflexivity.
  - rewrite (naca4_coordinates_decode_raises number n_points e Hd) in H.
    discriminate H.
Qed.

(** X1: a call of [naca4_coordinates] that fails ends with [IndexError],
    [ValueError], [OverflowError] or [ZeroDivisionError], and with
    [ZeroDivisionError] exactly when the designation decodes to [p = 0]
    and at least one sample is asked for. *)
Theorem X1_failures_of_naca4_coordinates (number : string) (n_points : Z) :
  (forall e, naca4_coordinates number n_points = Raise e ->
     e = IndexError \/ e = ValueError \/ e = OverflowError \/
     e = ZeroDivisionError) /\
  (naca4_coordinates number n_points = Raise ZeroDivisionError <->
   exists m t, decode number = Ok (m, 0, t) /\ (1 <= n_points)%Z).
Proof.
  split.
  - intros e He.
    destruct (naca4_coordinates_outcome number n_points)
      as [(e' & He' & Hk) | (out & Hout)].
    + rewrite He in He'. inversion He'. exact Hk.
    + rewrite He in Hout. discriminate Hout.
  - split.
    + intros H. destruct (decode number) as [[[m p] t] | e] eqn:Hd.
      * destruct (Z.ltb_spec n_points 0) as [Hneg | Hpos].
        { unfold naca4_coordinates in H. rewrite Hd in H. cbn [bind] in H.
          rewrite linspace_negative in H by exact Hneg. discriminate H. }
        destruct (decode_p_range number m p t Hd) as [-> | [Hlo Hhi]].
        -- exists m, t. split; [reflexivity |].
           destruct (Z.eq_dec n_points 0) as [-> | Hnz]; [| lia].
           rewrite (naca4_coordinates_no_point number m 0 t Hd) in H.
           discriminate H.
        -- rewrite (naca4_coordinates_value number n_points m p t Hd) in H
             by (lra || exact Hpos).
           discriminate H.
      * rewrite (naca4_coordinates_decode_raises number n_points e Hd) in H.
        inversion H as [He]. subst e.
        destruct (decode_raises number ZeroDivisionError Hd)
          as [N | [N | N]]; discriminate N.
    + intros (m & t & Hd & Hn).
      apply (naca4_coordinates_p_zero number n_points m t Hd Hn).
Qed.

(** X2: the six arrays of a successful run all have [n_points] entries. *)
Theorem X2_six_arrays_of_n_points (number : string) (n_points : Z)
    (out : coordinates) :
  naca4_coordinates number n_points = Ok out ->
  (0 <= n_points)%Z /\
  List.length (xu out) = Z.to_nat n_points /\
  List.length (yu out) = Z.to_nat n_points /\
  List.length (xl out) = Z.to_nat n_points /\
  List.length (yl out) = Z.to_nat n_points /\
  List.length (xc out) = Z.to_nat n_points /\
  List.length (yc out) = Z.to_nat n_points.
Proof.
  intros H.
  destruct (naca4_coordinates_inv number n_points out H)
    as (m & p & t & _ & Hn & _ & ->).
  cbn [xu yu xl yl xc yc]. rewrite !length_map, chord_length.
  repeat split; try reflexivity. exact Hn.
Qed.

Lemma run_4412 (n_points : Z) :
  (0 <= n_points)%Z ->
  naca4_coordinates "4412" n_points =
  Ok {| xu := map (xu_at (4 / 100) (4 / 10) (12 / 100)) (chord (Z.to_nat n_points));
        yu := map (yu_at (4 / 100) (4 / 10) (12 / 100)) (chord (Z.to_nat n_points));
        xl := map (xl_at (4 / 100) (4 / 10) (12 / 100)) (chord (Z.to_nat n_points));
        yl := map (yl_at (4 / 100) (4 / 10) (12 / 100)) (chord (Z.to_nat n_points));
        xc := chord (Z.to_nat n_points);
        yc := map (camber_line (4 / 100) (4 / 10)) (chord (Z.to_nat n_points)) |}.
Proof.
  intros Hn.
  rewrite (naca4_coordinates_value "4412" n_points _ _ _ decode_4412)
    by (lra || exact Hn).
  reflexivity.
Qed.

Lemma X2_six_arrays_of_n_points_witness :
  exists out,
    naca4_coordinates "4412" 200 = Ok out /\
    List.length (xu out) = 200%nat /\ List.length (yc out) = 200%nat.
Proof.
  eexists. split; [apply run_4412; lia |].
  pose proof (X2_six_arrays_of_n_points "4412" 200 _ (run_4412 200 ltac:(lia)))
    as Hx.
  change (Z.to_nat 200) with 200%nat in Hx.
  split; apply Hx.
Defined.

(** X3: the chord array of a successful run stays in [[0, 1]], starts at
    [0], ends at [1] when there are two samples or more, and is strictly
    increasing. *)
Theorem X3_chord_samples (number : string) (n_points : Z) (out : coordinates) :
  naca4_coordinates number n_points = Ok out ->
  let n := Z.to_nat n_points in
  let x := xc out in
  (forall i, (i < n)%nat -> 0 <= nth i x 0 <= 1) /\
  ((1 <= n)%nat -> nth 0 x 0 = 0) /\
  ((2 <= n)%nat -> nth (n - 1) x 0 = 1) /\
  (forall i j, (i < j)%nat -> (j < n)%nat -> nth i x 0 < nth j x 0).
Proof.
  intros H.
  destruct (naca4_coordinates_inv number n_points out H)
    as (m & p & t & _ & Hn & _ & ->).
  cbv zeta. cbn [xc]. set (n := Z.to_nat n_points).
  split; [| split; [| split]].
  - intros i Hi. rewrite chord_nth by exact Hi.
    apply sample_bounds; [lra | exact Hi].
  - intros H1. rewrite chord_nth by lia. apply sample_first.
  - intros H2. rewrite chord_nth by lia. unfold sample.
    field. apply not_0_INR. lia.
  - intros i j Hij Hj. rewrite !chord_nth by lia.
    apply sample_increasing; [lra | exact Hij | exact Hj].
Qed.

Lemma X3_chord_samples_witness :
  exists out,
    naca4_coordinates "4412" 200 = Ok out /\
    nth 0 (xc out) 0 = 0 /\ nth 199 (xc out) 0 = 1.
Proof.
  eexists. split; [apply run_4412; lia |].
  pose proof (X3_chord_samples "4412" 200 _ (run_4412 200 ltac:(lia))) as Hx.
  cbv zeta in Hx. change (Z.to_nat 200) with 200%nat in Hx.
  destruct Hx as (_ & H0 & H1 & _).
  split; [apply H0; lia | apply (H1 ltac:(lia))].
Defined.

Lemma cos_atan_pos (s : R) : 0 < cos (atan s).
Proof.
  destruct (atan_bound s) as [Hlo Hhi].
  apply cos_gt_0; lra.
Qed.

(** The arrays of a successful run at one index. *)
Lemma naca4_coordinates_at (number : string) (n_points : Z) (out : coordinates)
    (m p t : R) (i : nat) :
  naca4_coordinates number n_points = Ok out ->
  decode number = Ok (m, p, t) -> (i < Z.to_nat n_points)%nat ->
  let x := sample 0 1 (Z.to_nat n_points) i in
  nth i (xc out) 0 = x /\
  nth i (yc out) 0 = camber_line m p x /\
  nth i (xu out) 0 = xu_at m p t x /\
  nth i (yu out) 0 = yu_at m p t x /\
  nth i (xl out) 0 = xl_at m p t x /\
  nth i (yl out) 0 = yl_at m p t x /\
  nth i (thickness t (xc out)) 0 = yt_formula t x /\
  0 <= x <= 1 /\ 1 / 10 <= p <= 9 / 10.
Proof.
  intros H Hd Hi.
  destruct (naca4_coordinates_inv number n_points out H)
    as (m' & p' & t' & Hd' & Hn & Hp & ->).
  rewrite Hd in Hd'. inversion Hd'. subst m' p' t'.
  cbv zeta. cbn [xu yu xl yl xc yc].
  rewrite thickness_pointwise.
  rewrite !(map_nth_in _ _ 0) by (rewrite chord_length; exact Hi).
  rewrite chord_nth by exact Hi.
  repeat split; try reflexivity.
  - apply sample_bounds; [lra | exact Hi].
  - apply sample_bounds; [lra | exact Hi].
  - destruct (decode_p_range number m p t Hd) as [E | [Hlo _]]; [| exact Hlo].
    specialize (Hp E). lia.
  - destruct (decode_p_range number m p t Hd) as [E | [_ Hhi]]; [| exact Hhi].
    specialize (Hp E). lia.
Qed.

Lemma Rabs_zero_le (a tol : R) : a = 0 -> 0 <= tol -> Rabs a <= tol.
Proof. intros -> Htol. rewrite Rabs_R0. exact Htol. Qed.

(** X4: for a thickness [0 <= t <= 1], at every sample the camber point
    is the midpoint of the upper and the lower surface point and the two
    surface points are [2 yt] apart, each within [1e-9]. *)
Theorem X4_camber_is_midline (number : string) (n_points : Z)
    (out : coordinates) (m p t : R) (i : nat) :
  naca4_coordinates number n_points = Ok out ->
  decode number = Ok (m, p, t) -> 0 <= t <= 1 ->
  (i < Z.to_nat n_points)%nat ->
  let yt := nth i (thickness t (xc out)) 0 in
  Rabs ((nth i (xu out) 0 + nth i (xl out) 0) / 2 - nth i (xc out) 0)
    <= 1e-9 /\
  Rabs ((nth i (yu out) 0 + nth i (yl out) 0) / 2 - nth i (yc out) 0)
    <= 1e-9 /\
  Rabs ((nth i (xu out) 0 - nth i (xl out) 0) ^ 2 +
        (nth i (yu out) 0 - nth i (yl out) 0) ^ 2 - (2 * yt) ^ 2) <= 1e-9.
Proof.
  intros H Hd _ Hi.
  destruct (naca4_coordinates_at number n_points out m p t i H Hd Hi)
    as (Ex & Ec & Exu & Eyu & Exl & Eyl & Et & _).
  cbv zeta. rewrite Ex, Ec, Exu, Eyu, Exl, Eyl, Et.
  set (x := sample 0 1 (Z.to_nat n_points) i).
  unfold xu_at, yu_at, xl_at, yl_at.
  pose proof (sin2_cos2 (theta_at m p x)) as Hsc. unfold Rsqr in Hsc.
  repeat split; apply Rabs_zero_le; try lra; try field.
  replace ((x - yt_formula t x * sin (theta_at m p x) -
            (x + yt_formula t x * sin (theta_at m p x))) ^ 2 +
           (camber_line m p x + yt_formula t x * cos (theta_at m p x) -
            (camber_line m p x - yt_formula t x * cos (theta_at m p x))) ^ 2)
    with ((2 * yt_formula t x) ^ 2 *
          (sin (theta_at m p x) * sin (theta_at m p x) +
           cos (theta_at m p x) * cos (theta_at m p x))) by ring.
  rewrite Hsc. ring.
Qed.

Lemma X4_camber_is_midline_witness :
  exists out,
    naca4_coordinates "4412" 200 = Ok out /\
    Rabs ((nth 60 (yu out) 0 + nth 60 (yl out) 0) / 2 - nth 60 (yc out) 0)
      <= 1e-9.
Proof.
  eexists. split; [apply run_4412; lia |].
  apply (X4_camber_is_midline "4412" 200 _ _ _ _ 60
           (run_4412 200 ltac:(lia)) decode_4412).
  - lra.
  - change (Z.to_nat 200) with 200%nat. lia.
Defined.

(** X5: with a thickness [t >= 0] the upper surface is nowhere below
    the lower one, and nowhere below the camber line. *)
Theorem X5_upper_above_lower (number : string) (n_points : Z)
    (out : coordinates) (m p t : R) (i : nat) :
  naca4_coordinates number n_points = Ok out ->
  decode number = Ok (m, p, t) -> 0 <= t -> (i < Z.to_nat n_points)%nat ->
  nth i (yl out) 0 <= nth i (yc out) 0 <= nth i (yu out) 0.
Proof.
  intros H Hd Ht Hi.
  destruct (naca4_coordinates_at number n_points out m p t i H Hd Hi)
    as (_ & Ec & _ & Eyu & _ & Eyl & _ & Hx & _).
  rewrite Ec, Eyu, Eyl. unfold yu_at, yl_at, theta_at.
  pose proof (yt_formula_nonneg t _ Ht Hx) as Hyt.
  pose proof (cos_atan_pos
                (camber_slope m p (sample 0 1 (Z.to_nat n_points) i))) as Hc.
  split; nra.
Qed.

Lemma X5_upper_above_lower_witness :
  exists out,
    naca4_coordinates "4412" 200 = Ok out /\
    nth 60 (yl out) 0 <= nth 60 (yc out) 0 <= nth 60 (yu out) 0.
Proof.
  eexists. split; [apply run_4412; lia |].
  apply (X5_upper_above_lower "4412" 200 _ _ _ _ 60
           (run_4412 200 ltac:(lia)) decode_4412).
  - lra.
  - change (Z.to_nat 200) with 200%nat. lia.
Defined.

Lemma camber_line_at_zero (m p : R) : 0 < p -> camber_line m p 0 = 0.
Proof.
  intros Hp. unfold camber_line.
  destruct (Rle_dec 0 p) as [_ | N]; [| lra]. unfold Rdiv. ring.
Qed.

Lemma camber_line_at_one (m p : R) : p < 1 -> camber_line m p 1 = 0.
Proof.
  intros Hp. unfold camber_line.
  destruct (Rle_dec 1 p) as [N | _]; [lra |]. unfold Rdiv. ring.
Qed.

Lemma yt_formula_at_one (t : R) : yt_formula t 1 = 0.0105 * t.
Proof. unfold yt_formula. rewrite sqrt_1. lra. Qed.

(** X6: the two surfaces start at the same point: the first entries of
    [xu], [yu], [xl], [yl] and [yc] are all [0]. *)
Theorem X6_leading_edge_closed (number : string) (n_points : Z)
    (out : coordinates) :
  naca4_coordinates number n_points = Ok out -> (1 <= n_points)%Z ->
  nth 0 (xu out) 1 = 0 /\ nth 0 (yu out) 1 = 0 /\
  nth 0 (xl out) 1 = 0 /\ nth 0 (yl out) 1 = 0 /\
  nth 0 (yc out) 1 = 0.
Proof.
  intros H Hn.
  destruct (naca4_coordinates_inv number n_points out H)
    as (m & p & t & Hd & _ & _ & Eout).
  assert (Hi : (0 < Z.to_nat n_points)%nat) by lia.
  destruct (naca4_coordinates_at number n_points out m p t 0 H Hd Hi)
    as (_ & Ec & Exu & Eyu & Exl & Eyl & _ & _ & Hp).
  assert (Hlen : forall f : R -> R,
            (0 < List.length (map f (chord (Z.to_nat n_points))))%nat)
    by (intros f; rewrite length_map, chord_length; exact Hi).
  rewrite (nth_indep (xu out) 1 0), (nth_indep (yu out) 1 0),
    (nth_indep (xl out) 1 0), (nth_indep (yl out) 1 0),
    (nth_indep (yc out) 1 0)
    by (rewrite Eout; cbn [xu yu xl yl yc]; apply Hlen).
  rewrite Ec, Exu, Eyu, Exl, Eyl, sample_first.
  unfold xu_at, yu_at, xl_at, yl_at.
  rewrite yt_formula_zero, camber_line_at_zero by lra.
  repeat split; ring.
Qed.

Lemma X6_leading_edge_closed_witness :
  exists out,
    naca4_coordinates "4412" 200 = Ok out /\
    nth 0 (xu out) 1 = 0 /\ nth 0 (yl out) 1 = 0.
Proof.
  eexists. split; [apply run_4412; lia |].
  pose proof (X6_leading_edge_closed "4412" 200 _ (run_4412 200 ltac:(lia))
                ltac:(lia)) as Hx.
  split; apply Hx.
Defined.

(** X7: the trailing edge is left open: at the last of two samples or
    more [x = 1] and the camber is [0]; for [t > 0] the half thickness
    there lies between [0.01 t] and [0.011 t], so the lower surface ends
    below [0] and the upper one above. *)
Theorem X7_trailing_edge_open (number : string) (n_points : Z)
    (out : coordinates) (m p t : R) :
  naca4_coordinates number n_points = Ok out ->
  decode number = Ok (m, p, t) -> (2 <= n_points)%Z ->
  let last := (Z.to_nat n_points - 1)%nat in
  nth last (xc out) 0 = 1 /\
  nth last (yc out) 0 = 0 /\
  (0 < t ->
   0.01 * t <= nth last (thickness t (xc out)) 0 <= 0.011 * t /\
   nth last (yl out) 0 < 0 < nth last (yu out) 0).
Proof.
  intros H Hd Hn. cbv zeta.
  assert (Hi : (Z.to_nat n_points - 1 < Z.to_nat n_points)%nat) by lia.
  destruct (naca4_coordinates_at number n_points out m p t _ H Hd Hi)
    as (Ex & Ec & _ & Eyu & _ & Eyl & Et & _ & Hp).
  assert (E1 : sample 0 1 (Z.to_nat n_points) (Z.to_nat n_points - 1) = 1).
  { unfold sample. field. apply not_0_INR. lia. }
  rewrite E1 in *.
  rewrite Ex, Ec, Eyu, Eyl, Et. unfold yu_at, yl_at, theta_at.
  rewrite camber_line_at_one, yt_formula_at_one by lra.
  split; [reflexivity |]. split; [reflexivity |].
  intros Ht. pose proof (cos_atan_pos (camber_slope m p 1)) as Hc.
  split; [split; lra |]. split; nra.
Qed.

Lemma X7_trailing_edge_open_witness :
  exists out,
    naca4_coordinates "4412" 200 = Ok out /\
    nth 199 (yl out) 0 < 0 < nth 199 (yu out) 0.
Proof.
  eexists. split; [apply run_4412; lia |].
  pose proof (X7_trailing_edge_open "4412" 200 _ _ _ _
                (run_4412 200 ltac:(lia)) decode_4412 ltac:(lia)) as Hx.
  cbv zeta in Hx. change (Z.to_nat 200 - 1)%nat with 199%nat in Hx.
  apply Hx. lra.
Defined.

Lemma scaled_fraction_bounds (m d q : R) :
  0 <= m -> 0 < d -> 0 <= q <= d -> 0 <= m / d * q <= m.
Proof.
  intros Hm Hd [Hq0 Hq1].
  assert (Hf : q / d * d = q) by (field; lra).
  assert (H0 : 0 <= q / d).
  { apply Rmult_le_pos; [exact Hq0 | left; apply Rinv_0_lt_compat, Hd]. }
  assert (H1 : q / d <= 1).
  { apply (Rmult_le_reg_r d); [exact Hd | lra]. }
  replace (m / d * q) with (m * (q / d)) by (field; lra).
  split; nra.
Qed.

Lemma camber_line_bounds (m p x : R) :
  0 <= m -> 0 < p < 1 -> 0 <= x <= 1 -> 0 <= camber_line m p x <= m.
Proof.
  intros Hm [Hp0 Hp1] [Hx0 Hx1]. unfold camber_line.
  destruct (Rle_dec x p) as [Hle | Hgt].
  - apply scaled_fraction_bounds; [exact Hm | nra | split; nra].
  - apply scaled_fraction_bounds; [exact Hm | nra | split; nra].
Qed.

Lemma decode_m_range (number : string) (m p t : R) :
  decode number = Ok (m, p, t) -> 0 <= m <= 9 / 100.
Proof.
  intros H. destruct (decode_inv number m p t H)
    as (a & b & z & _ & _ & Ha & _ & _ & -> & _ & _).
  pose proof (digit_value_range a Ha) as [Hlo Hhi].
  apply IZR_le in Hlo. apply IZR_le in Hhi. lra.
Qed.

(** X8: every entry of the camber array is at least [0] and exceeds the
    decoded maximum camber [m] by [1e-9] at most. *)
Theorem X8_camber_between_zero_and_m (number : string) (n_points : Z)
    (out : coordinates) (m p t : R) :
  naca4_coordinates number n_points = Ok out ->
  decode number = Ok (m, p, t) ->
  Forall (fun y => 0 <= y <= m + 1e-9) (yc out).
Proof.
  intros H Hd.
  destruct (naca4_coordinates_inv number n_points out H)
    as (m' & p' & t' & Hd' & Hn & Hp & ->).
  rewrite Hd in Hd'. inversion Hd'. subst m' p' t'. cbn [yc].
  apply Forall_forall. intros y Hin.
  apply in_map_iff in Hin. destruct Hin as (x & <- & Hx).
  pose proof (chord_in_unit (Z.to_nat n_points)) as Hall.
  rewrite Forall_forall in Hall. specialize (Hall x Hx).
  destruct (decode_p_range number m p t Hd) as [E | [Hlo Hhi]].
  - specialize (Hp E). subst n_points. destruct Hx.
  - pose proof (camber_line_bounds m p x
                  (proj1 (decode_m_range number m p t Hd))
                  ltac:(lra) Hall) as Hb.
    lra.
Qed.

Lemma X8_camber_between_zero_and_m_witness :
  exists out,
    naca4_coordinates "4412" 200 = Ok out /\
    Forall (fun y => 0 <= y <= 4 / 100 + 1e-9) (yc out).
Proof.
  eexists. split; [apply run_4412; lia |].
  apply (X8_camber_between_zero_and_m "4412" 200 _ _ _ _
           (run_4412 200 ltac:(lia)) decode_4412).
Defined.

Lemma yt_formula_upper (t v : R) :
  0 <= t -> 0 <= v <= 1 -> yt_formula t v <= t.
Proof.
  intros Ht [Hv0 Hv1].
  remember (sqrt v) as s eqn:Es.
  assert (Hs0 : 0 <= s) by (rewrite Es; apply sqrt_pos).
  assert (Hss : s * s = v) by (rewrite Es; apply sqrt_sqrt; exact Hv0).
  assert (Hs1 : s <= 1) by nra.
  unfold yt_formula. rewrite <- Es.
  assert (Hv2 : 0 <= v ^ 2) by nra.
  assert (Hv3 : v ^ 3 <= v ^ 2) by nra.
  assert (Hv4 : 0 <= v ^ 4) by (apply pow_le; exact Hv0).
  assert (Hbr : 0.2969 * s - 0.1260 * v - 0.3516 * v ^ 2
                + 0.2843 * v ^ 3 - 0.1015 * v ^ 4 <= 0.2) by nra.
  nra.
Qed.

(** X9: with [t >= 0] no entry of the thickness array exceeds [t]. *)
Theorem X9_thickness_at_most_t (t : R) (n_points : Z) (x : Np.array) :
  Np.linspace 0 1 n_points = Ok x -> 0 <= t ->
  Forall (fun y => 0 <= y <= t) (thickness t x).
Proof.
  intros Hx Ht.
  assert (Hn : (0 <= n_points)%Z).
  { destruct (Z.ltb_spec n_points 0) as [Hneg | Hpos]; [| exact Hpos].
    rewrite linspace_negative in Hx by exact Hneg. discriminate Hx. }
  rewrite linspace_chord in Hx by exact Hn. inversion Hx as [Ex]. clear Hx.
  rewrite thickness_pointwise.
  apply Forall_forall. intros y Hin.
  apply in_map_iff in Hin. destruct Hin as (v & <- & Hv).
  pose proof (chord_in_unit (Z.to_nat n_points)) as Hall.
  rewrite Forall_forall in Hall. specialize (Hall v Hv).
  split; [apply yt_formula_nonneg | apply yt_formula_upper]; assumption.
Qed.

Lemma X9_thickness_at_most_t_witness :
  Forall (fun y => 0 <= y <= 0.12) (thickness 0.12 (chord (Z.to_nat 100))).
Proof.
  apply (X9_thickness_at_most_t 0.12 100 (chord (Z.to_nat 100))).
  - apply linspace_chord. lia.
  - lra.
Defined.

(** ** Further properties of the decoding *)

Lemma digit_value_inj (a b : ascii) :
  Py.digit_value a = Py.digit_value b -> a = b.
Proof.
  unfold Py.digit_value. intros H.
  assert (E : nat_of_ascii a = nat_of_ascii b) by lia.
  rewrite <- (ascii_nat_embedding a), <- (ascii_nat_embedding b), E.
  reflexivity.
Qed.

Lemma hundredth_inj (y z : Z) : IZR y / 100 = IZR z / 100 -> y = z.
Proof. intros H. apply eq_IZR. lra. Qed.

Lemma tenth_inj (y z : Z) : IZR y / 10 = IZR z / 10 -> y = z.
Proof. intros H. apply eq_IZR. lra. Qed.

(** X10: a designation of four digits always decodes, to
    [0 <= m <= 0.09], [0 <= p <= 0.9] and [0 <= t <= 0.99] (so [t = 0] is
    possible); and two such designations that decode to the same
    parameters are the same string. *)
Theorem X10_decode_four_digits (a b c d a' b' c' d' : ascii) :
  Py.isdigit a = true -> Py.isdigit b = true ->
  Py.isdigit c = true -> Py.isdigit d = true ->
  Py.isdigit a' = true -> Py.isdigit b' = true ->
  Py.isdigit c' = true -> Py.isdigit d' = true ->
  (exists m p t,
     decode (four a b c d) = Ok (m, p, t) /\
     0 <= m <= 0.09 /\ 0 <= p <= 0.9 /\ 0 <= t <= 0.99) /\
  (decode (four a b c d) = decode (four a' b' c' d') ->
   four a b c d = four a' b' c' d').
Proof.
  intros Ha Hb Hc Hd Ha' Hb' Hc' Hd'.
  pose proof (digit_value_range a Ha) as Ra.
  pose proof (digit_value_range b Hb) as Rb.
  pose proof (digit_value_range c Hc) as Rc.
  pose proof (digit_value_range d Hd) as Rd.
  pose proof (digit_value_range c' Hc') as Rc'.
  pose proof (digit_value_range d' Hd') as Rd'.
  rewrite (decode_four a b c d Ha Hb Hc Hd).
  rewrite (decode_four a' b' c' d' Ha' Hb' Hc' Hd').
  split.
  - do 3 eexists. split; [reflexivity |].
    assert (Rt : (0 <= 10 * Py.digit_value c + Py.digit_value d <= 99)%Z) by lia.
    destruct Ra as [Ra0 Ra1]. destruct Rb as [Rb0 Rb1]. destruct Rt as [Rt0 Rt1].
    apply IZR_le in Ra0, Ra1, Rb0, Rb1, Rt0, Rt1.
    repeat split; lra.
  - intros E. injection E as Em Ep Et.
    assert (Et' : (10 * Py.digit_value c + Py.digit_value d =
                   10 * Py.digit_value c' + Py.digit_value d')%Z)
      by (apply hundredth_inj; exact Et).
    apply hundredth_inj in Em. apply tenth_inj in Ep.
    apply digit_value_inj in Em, Ep. subst a' b'.
    assert (Ec : Py.digit_value c = Py.digit_value c') by lia.
    assert (Ed : Py.digit_value d = Py.digit_value d') by lia.
    apply digit_value_inj in Ec, Ed. subst c' d'. reflexivity.
Qed.

Lemma X10_decode_four_digits_witness :
  (exists m p t,
     decode "4412" = Ok (m, p, t) /\
     0 <= m <= 0.09 /\ 0 <= p <= 0.9 /\ 0 <= t <= 0.99) /\
  (decode "4412" = decode "2412" -> "4412"%string = "2412"%string).
Proof.
  exact (X10_decode_four_digits "4" "4" "1" "2" "2" "4" "1" "2"
           eq_refl eq_refl eq_refl eq_refl eq_refl eq_refl eq_refl eq_refl).
Defined.

Lemma int_minus_digit (d : ascii) :
  Py.isdigit d = true ->
  Py.int (String "-" (String d EmptyString)) = Ok (- Py.digit_value d)%Z.
Proof.
  intros Hd. apply isdigit_cases in Hd. simpl in Hd.
  repeat (destruct Hd as [<- | Hd]; [vm_compute; reflexivity |]).
  contradiction.
Qed.

(** X11: a sign is accepted in the thickness field.  A digit, a nonzero
    digit, ['-'] and a digit decode to the negative thickness
    [t = - d / 100]; the call then returns arrays on which the upper
    surface is nowhere above the lower one. *)
Theorem X11_negative_thickness_accepted (a b d : ascii) (n_points : Z) :
  Py.isdigit a = true -> Py.isdigit b = true -> Py.isdigit d = true ->
  b <> "0"%char -> (0 <= n_points)%Z ->
  decode (four a b "-" d) =
    Ok (IZR (Py.digit_value a) / 100, IZR (Py.digit_value b) / 10,
        - IZR (Py.digit_value d) / 100) /\
  exists out,
    naca4_coordinates (four a b "-" d) n_points = Ok out /\
    forall i, (i < Z.to_nat n_points)%nat ->
      nth i (yu out) 0 <= nth i (yl out) 0.
Proof.
  intros Ha Hb Hd Hb0 Hn.
  pose proof (digit_value_range b Hb) as Rb.
  pose proof (digit_value_range d Hd) as Rd.
  assert (Hdec : decode (four a b "-" d) =
            Ok (IZR (Py.digit_value a) / 100, IZR (Py.digit_value b) / 10,
                - IZR (Py.digit_value d) / 100)).
  { rewrite (decode_reads (four a b "-" d) a b (- Py.digit_value d)%Z
               eq_refl eq_refl Ha Hb (int_minus_digit d Hd)) by lia.
    rewrite opp_IZR. reflexivity. }
  split; [exact Hdec |].
  assert (Hbnz : Py.digit_value b <> 0%Z).
  { intros E. apply Hb0. apply digit_value_inj. rewrite E. reflexivity. }
  assert (Hb1 : (1 <= Py.digit_value b)%Z) by lia.
  destruct Rb as [_ Rb9]. destruct Rd as [Rd0 _].
  apply IZR_le in Hb1, Rb9, Rd0.
  pose proof (naca4_coordinates_value (four a b "-" d) n_points _ _ _ Hdec)
    as Hrun.
  cbv zeta in Hrun. rewrite Hrun by (lra || exact Hn).
  eexists. split; [reflexivity |].
  intros i Hi. cbn [yu yl].
  rewrite !(map_nth_in _ _ 0) by (rewrite chord_length; exact Hi).
  unfold yu_at, yl_at, theta_at.
  set (x := nth i (chord (Z.to_nat n_points)) 0).
  assert (Hx : 0 <= x <= 1).
  { unfold x. rewrite chord_nth by exact Hi.
    apply sample_bounds; [lra | exact Hi]. }
  pose proof (cos_atan_pos
                (camber_slope (IZR (Py.digit_value a) / 100)
                   (IZR (Py.digit_value b) / 10) x)) as Hc.
  pose proof (yt_formula_nonneg (IZR (Py.digit_value d) / 100) x
                ltac:(lra) Hx) as Hyt.
  assert (Eneg : yt_formula (- IZR (Py.digit_value d) / 100) x =
                 - yt_formula (IZR (Py.digit_value d) / 100) x)
    by (unfold yt_formula; lra).
  rewrite Eneg. nra.
Qed.

Lemma X11_negative_thickness_accepted_witness :
  decode "44-5" = Ok (IZR 4 / 100, IZR 4 / 10, - IZR 5 / 100) /\
  exists out,
    naca4_coordinates "44-5" 100 = Ok out /\
    forall i, (i < Z.to_nat 100)%nat -> nth i (yu out) 0 <= nth i (yl out) 0.
Proof.
  apply (X11_negative_thickness_accepted "4" "4" "5" 100
           eq_refl eq_refl eq_refl).
  - discriminate.
  - lia.
Defined.

(** X12: the count of samples is not checked either.  For a designation
    that decodes, [n_points = 0] returns six empty arrays, also when
    [p = 0], and a negative [n_points] ends with the [ValueError] of
    [np.linspace]. *)
Theorem X12_sample_count_edges (number : string) (n_points : Z) (m p t : R) :
  decode number = Ok (m, p, t) ->
  naca4_coordinates number 0 =
    Ok {| xu := []; yu := []; xl := []; yl := []; xc := []; yc := [] |} /\
  ((n_points < 0)%Z -> naca4_coordinates number n_points = Raise ValueError).
Proof.
  intros Hd. split.
  - apply (naca4_coordinates_no_point number m p t Hd).
  - intros Hn. unfold naca4_coordinates. rewrite Hd. cbn [bind].
    rewrite linspace_negative by exact Hn. reflexivity.
Qed.

Lemma X12_sample_count_edges_witness :
  naca4_coordinates "0012" 0 =
    Ok {| xu := []; yu := []; xl := []; yl := []; xc := []; yc := [] |} /\
  naca4_coordinates "0012" (-3) = Raise ValueError.
Proof.
  destruct (X12_sample_count_edges "0012" (-3) _ _ _ decode_0012) as [H0 Hneg].
  split; [exact H0 | apply Hneg; lia].
Defined.



(** * Further properties of [compute_flow_field] *)

(** The arrays of a successful run at one grid point. *)
Lemma compute_flow_field_at (self : FlowSolver) (grid_res : Z)
    (out : flow_field) (i j : nat) :
  compute_flow_field self grid_res = Ok out ->
  (i < Z.to_nat grid_res)%nat -> (j < Z.to_nat grid_res)%nat ->
  let x := sample (-0.5) 1.5 (Z.to_nat grid_res) j in
  let y := sample (-0.8) 0.8 (Z.to_nat grid_res) i in
  Np.at2 (fX out) i j = x /\ Np.at2 (fY out) i j = y /\
  Np.at2 (fU out) i j = U_at (alpha self) x y /\
  Np.at2 (fV out) i j = V_at (alpha self) x y /\
  Np.at2 (fCp out) i j = Cp_at (alpha self) x y.
Proof.
  intros H Hi Hj.
  destruct (compute_flow_field_inv self grid_res out H) as [Hg ->].
  cbv zeta. cbn [fX fY fU fV fCp].
  set (n := Z.to_nat grid_res) in *.
  assert (Lx : List.length (map (sample (-0.5) 1.5 n) (seq 0 n)) = n)
    by apply axis_length.
  assert (Ly : List.length (map (sample (-0.8) 0.8 n) (seq 0 n)) = n)
    by apply axis_length.
  rewrite !tab_at by lia.
  rewrite !axis_nth by assumption.
  repeat split; reflexivity.
Qed.

Lemma Cp_at_bernoulli (a x y : R) :
  Cp_at a x y = 1 - (U_at a x y ^ 2 + V_at a x y ^ 2).
Proof.
  unfold Cp_at. rewrite pow2_sqrt; [reflexivity |].
  apply Rplus_le_le_0_compat; apply pow2_ge_0.
Qed.

Lemma Rabs_le_within (a b : R) : Rabs a <= b -> - b <= a <= b.
Proof.
  intros H. pose proof (Rle_abs a) as H1. pose proof (Rle_abs (- a)) as H2.
  rewrite Rabs_Ropp in H2. lra.
Qed.

Lemma U_at_bounds (a x y : R) : -2 <= U_at a x y <= 2.
Proof.
  unfold U_at. pose proof (COS_bound a) as [Hc0 Hc1].
  pose proof (u_vortex_bound x y) as Hu.
  apply Rabs_le_within in Hu. lra.
Qed.

Lemma V_at_bounds (a x y : R) : -2 <= V_at a x y <= 2.
Proof.
  unfold V_at. pose proof (SIN_bound a) as [Hs0 Hs1].
  pose proof (v_vortex_bound x y) as Hv.
  apply Rabs_le_within in Hv. lra.
Qed.

(** X14: at every grid point the pressure coefficient is within [1e-9]
    of [1 - (U^2 + V^2)] for the velocities at that point, and lies
    between [-7] and [1]. *)
Theorem X14_pressure_coefficient (self : FlowSolver) (grid_res : Z)
    (out : flow_field) (i j : nat) :
  compute_flow_field self grid_res = Ok out ->
  (i < Z.to_nat grid_res)%nat -> (j < Z.to_nat grid_res)%nat ->
  Rabs (Np.at2 (fCp out) i j -
        (1 - (Np.at2 (fU out) i j ^ 2 + Np.at2 (fV out) i j ^ 2))) <= 1e-9 /\
  -7 <= Np.at2 (fCp out) i j <= 1.
Proof.
  intros H Hi Hj.
  destruct (compute_flow_field_at self grid_res out i j H Hi Hj)
    as (_ & _ & EU & EV & ECp).
  rewrite EU, EV, ECp, Cp_at_bernoulli.
  split; [apply Rabs_zero_le; lra |].
  pose proof (U_at_bounds (alpha self)
                (sample (-0.5) 1.5 (Z.to_nat grid_res) j)
                (sample (-0.8) 0.8 (Z.to_nat grid_res) i)) as HU.
  pose proof (V_at_bounds (alpha self)
                (sample (-0.5) 1.5 (Z.to_nat grid_res) j)
                (sample (-0.8) 0.8 (Z.to_nat grid_res) i)) as HV.
  split; nra.
Qed.

Lemma run_flow (self : FlowSolver) (grid_res : Z) :
  (0 <= grid_res)%Z ->
  exists out, compute_flow_field self grid_res = Ok out.
Proof.
  intros Hg. rewrite compute_flow_field_value by exact Hg.
  eexists. reflexivity.
Qed.

Lemma X14_pressure_coefficient_witness :
  exists out,
    compute_flow_field (init "4412" 6 1000000) 200 = Ok out /\
    -7 <= Np.at2 (fCp out) 100 50 <= 1.
Proof.
  destruct (run_flow (init "4412" 6 1000000) 200 ltac:(lia)) as [out Hrun].
  exists out. split; [exact Hrun |].
  apply (X14_pressure_coefficient _ 200 out 100 50 Hrun);
    change (Z.to_nat 200) with 200%nat; lia.
Defined.

(** The induced velocity at one point: its square is
    [(gamma / 2 pi)^2 r2 / (r2 + 0.05)^2]. *)
Lemma induced_speed (x y : R) :
  let c := gamma / (2 * PI) in
  let w := u_vortex_at x y ^ 2 + v_vortex_at x y ^ 2 in
  w * (r2_at x y + 0.05) ^ 2 = c ^ 2 * r2_at x y /\
  w <= 5 * c ^ 2 /\
  w * r2_at x y <= c ^ 2.
Proof.
  cbv zeta.
  pose proof (r2_at_nonneg x y) as Hr.
  set (c := gamma / (2 * PI)).
  set (d := r2_at x y + 0.05).
  assert (Hd : 0 < d) by (unfold d; lra).
  assert (Hd2 : 0 < d ^ 2) by nra.
  assert (E : (u_vortex_at x y ^ 2 + v_vortex_at x y ^ 2) * d ^ 2 =
              c ^ 2 * r2_at x y).
  { unfold u_vortex_at, v_vortex_at. fold c. fold d.
    unfold r2_at. field. lra. }
  set (w := u_vortex_at x y ^ 2 + v_vortex_at x y ^ 2) in *.
  assert (Hc2 : 0 <= c ^ 2) by apply pow2_ge_0.
  split; [exact E |]. split.
  - apply (Rmult_le_reg_r (d ^ 2)); [exact Hd2 |]. rewrite E.
    assert (Hq : r2_at x y <= 5 * d ^ 2).
    { unfold d. pose proof (pow2_ge_0 (r2_at x y - 0.05)). nra. }
    nra.
  - assert (Hw : 0 <= w) by (unfold w; apply Rplus_le_le_0_compat; apply pow2_ge_0).
    assert (Hrd : r2_at x y <= d) by (unfold d; lra).
    assert (Hwr : w * r2_at x y * d ^ 2 <= c ^ 2 * d ^ 2).
    { replace (w * r2_at x y * d ^ 2) with (w * d ^ 2 * r2_at x y) by ring.
      rewrite E.
      assert (Hsq : r2_at x y * r2_at x y <= d ^ 2) by nra.
      rewrite Rmult_assoc. apply Rmult_le_compat_l; assumption. }
    apply (Rmult_le_reg_r (d ^ 2)); [exact Hd2 | exact Hwr].
Qed.

(** X15: at every grid point the velocity differs from the free stream
    [(cos alpha, sin alpha)] by a vector of squared length [w <= 0.87],
    and [w r2 <= 0.174] for the squared distance [r2] to the vortex: the
    disturbance dies out away from it. *)
Theorem X15_induced_speed (self : FlowSolver) (grid_res : Z)
    (out : flow_field) (i j : nat) :
  compute_flow_field self grid_res = Ok out ->
  (i < Z.to_nat grid_res)%nat -> (j < Z.to_nat grid_res)%nat ->
  let r2 := (Np.at2 (fX out) i j - 0.25) ^ 2 + Np.at2 (fY out) i j ^ 2 in
  let w := (Np.at2 (fU out) i j - cos (alpha self)) ^ 2 +
           (Np.at2 (fV out) i j - sin (alpha self)) ^ 2 in
  w <= 0.87 /\ w * r2 <= 0.174.
Proof.
  intros H Hi Hj.
  destruct (compute_flow_field_at self grid_res out i j H Hi Hj)
    as (EX & EY & EU & EV & _).
  cbv zeta. rewrite EX, EY, EU, EV. unfold U_at, V_at.
  set (x := sample (-0.5) 1.5 (Z.to_nat grid_res) j).
  set (y := sample (-0.8) 0.8 (Z.to_nat grid_res) i).
  replace (cos (alpha self) + u_vortex_at x y - cos (alpha self))
    with (u_vortex_at x y) by ring.
  replace (sin (alpha self) + v_vortex_at x y - sin (alpha self))
    with (v_vortex_at x y) by ring.
  pose proof (induced_speed x y) as Hw. cbv zeta in Hw.
  destruct Hw as (_ & Hw1 & Hw2). fold (r2_at x y).
  destruct circulation_factor_bounds as [Hc0 Hc1].
  assert (Hc2 : (gamma / (2 * PI)) ^ 2 <= 0.1737) by nra.
  split; lra.
Qed.

Lemma X15_induced_speed_witness :
  exists out,
    compute_flow_field (init "4412" 6 1000000) 200 = Ok out /\
    (Np.at2 (fU out) 100 50 - cos (alpha (init "4412" 6 1000000))) ^ 2 +
    (Np.at2 (fV out) 100 50 - sin (alpha (init "4412" 6 1000000))) ^ 2
    <= 0.87.
Proof.
  destruct (run_flow (init "4412" 6 1000000) 200 ltac:(lia)) as [out Hrun].
  exists out. split; [exact Hrun |].
  apply (X15_induced_speed _ 200 out 100 50 Hrun);
    change (Z.to_nat 200) with 200%nat; lia.
Defined.

Lemma Cp_at_centre (a : R) :
  U_at a 0.25 0 = cos a /\ V_at a 0.25 0 = sin a /\ Cp_at a 0.25 0 = 0.
Proof.
  destruct vortex_at_centre as (_ & Hu & Hv).
  assert (EU : U_at a 0.25 0 = cos a) by (unfold U_at; rewrite Hu; ring).
  assert (EV : V_at a 0.25 0 = sin a) by (unfold V_at; rewrite Hv; ring).
  split; [exact EU |]. split; [exact EV |].
  rewrite Cp_at_bernoulli, EU, EV.
  pose proof (sin2_cos2 a) as Hsc. unfold Rsqr in Hsc. lra.
Qed.

(** X16: with [grid_res = 8 k + 1], [k >= 1], the grid point of row
    [4 k] and column [3 k] is the vortex centre [(0.25, 0)]; there the
    velocity is the free stream [(cos alpha, sin alpha)] and the pressure
    coefficient is [0], each within [1e-9]. *)
Theorem X16_vortex_centre_on_grid (self : FlowSolver) (k : nat)
    (out : flow_field) :
  (1 <= k)%nat ->
  compute_flow_field self (Z.of_nat (8 * k + 1)) = Ok out ->
  Rabs (Np.at2 (fX out) (4 * k) (3 * k) - 0.25) <= 1e-9 /\
  Rabs (Np.at2 (fY out) (4 * k) (3 * k)) <= 1e-9 /\
  Rabs (Np.at2 (fU out) (4 * k) (3 * k) - cos (alpha self)) <= 1e-9 /\
  Rabs (Np.at2 (fV out) (4 * k) (3 * k) - sin (alpha self)) <= 1e-9 /\
  Rabs (Np.at2 (fCp out) (4 * k) (3 * k)) <= 1e-9.
Proof.
  intros Hk H.
  assert (Hi : (4 * k < Z.to_nat (Z.of_nat (8 * k + 1)))%nat) by lia.
  assert (Hj : (3 * k < Z.to_nat (Z.of_nat (8 * k + 1)))%nat) by lia.
  destruct (compute_flow_field_at self _ out _ _ H Hi Hj)
    as (EX & EY & EU & EV & ECp).
  rewrite Nat2Z.id in *.
  assert (Hk0 : INR k <> 0) by (apply not_0_INR; lia).
  assert (Ex : sample (-0.5) 1.5 (8 * k + 1) (3 * k) = 0.25).
  { unfold sample. replace (8 * k + 1 - 1)%nat with (8 * k)%nat by lia.
    rewrite !mult_INR. replace (INR 3) with 3 by (simpl; lra).
    replace (INR 8) with 8 by (simpl; lra).
    assert (Hq : INR k * / (8 * INR k) = / 8) by (field; exact Hk0).
    unfold Rdiv. set (q := / (8 * INR k)) in *. nra. }
  assert (Ey : sample (-0.8) 0.8 (8 * k + 1) (4 * k) = 0).
  { unfold sample. replace (8 * k + 1 - 1)%nat with (8 * k)%nat by lia.
    rewrite !mult_INR. replace (INR 4) with 4 by (simpl; lra).
    replace (INR 8) with 8 by (simpl; lra).
    assert (Hq : INR k * / (8 * INR k) = / 8) by (field; exact Hk0).
    unfold Rdiv. set (q := / (8 * INR k)) in *. nra. }
  rewrite Ex, Ey in *.
  destruct (Cp_at_centre (alpha self)) as (CU & CV & CCp).
  rewrite EX, EY, EU, EV, ECp, CU, CV, CCp.
  repeat split; apply Rabs_zero_le; lra.
Qed.

Lemma X16_vortex_centre_on_grid_witness :
  exists out,
    compute_flow_field (init "4412" 6 1000000) 17 = Ok out /\
    Rabs (Np.at2 (fX out) 8 6 - 0.25) <= 1e-9 /\
    Rabs (Np.at2 (fY out) 8 6) <= 1e-9 /\
    Rabs (Np.at2 (fCp out) 8 6) <= 1e-9.
Proof.
  destruct (run_flow (init "4412" 6 1000000) 17 ltac:(lia)) as [out Hrun].
  exists out. split; [exact Hrun |].
  pose proof (X16_vortex_centre_on_grid (init "4412" 6 1000000) 2 out
                ltac:(lia) Hrun) as Hx.
  change (4 * 2)%nat with 8%nat in Hx. change (3 * 2)%nat with 6%nat in Hx.
  repeat split; apply Hx.
Defined.

Lemma sample_mirror (b : R) (n i : nat) :
  (2 <= n)%nat -> (i < n)%nat ->
  sample (- b) b n (n - 1 - i) = - sample (- b) b n i.
Proof.
  intros Hn Hi. unfold sample.
  rewrite minus_INR by lia.
  field. apply not_0_INR. lia.
Qed.

Lemma vortex_mirror (x y : R) :
  u_vortex_at x (- y) = - u_vortex_at x y /\
  v_vortex_at x (- y) = v_vortex_at x y.
Proof.
  assert (Er : r2_at x (- y) = r2_at x y) by (unfold r2_at; ring).
  unfold u_vortex_at, v_vortex_at. rewrite Er.
  split; [unfold Rdiv; ring | reflexivity].
Qed.

(** X17: the grid and the vortex field are mirrored about [y = 0].  With
    two rows or more, row [g - 1 - i] has the same [X] as row [i] and,
    within [1e-9], the opposite [Y]; there the velocity induced along
    [x] is the opposite and [V] is the same, within [1e-9]. *)
Theorem X17_mirror_about_chord_line (self : FlowSolver) (grid_res : Z)
    (out : flow_field) (i j : nat) :
  compute_flow_field self grid_res = Ok out -> (2 <= grid_res)%Z ->
  (i < Z.to_nat grid_res)%nat -> (j < Z.to_nat grid_res)%nat ->
  let i' := (Z.to_nat grid_res - 1 - i)%nat in
  Np.at2 (fX out) i' j = Np.at2 (fX out) i j /\
  Rabs (Np.at2 (fY out) i' j + Np.at2 (fY out) i j) <= 1e-9 /\
  Rabs ((Np.at2 (fU out) i' j - cos (alpha self)) +
        (Np.at2 (fU out) i j - cos (alpha self))) <= 1e-9 /\
  Rabs (Np.at2 (fV out) i' j - Np.at2 (fV out) i j) <= 1e-9.
Proof.
  intros H Hg Hi Hj. cbv zeta.
  assert (Hi' : (Z.to_nat grid_res - 1 - i < Z.to_nat grid_res)%nat) by lia.
  destruct (compute_flow_field_at self grid_res out i j H Hi Hj)
    as (EX & EY & EU & EV & _).
  destruct (compute_flow_field_at self grid_res out _ j H Hi' Hj)
    as (EX' & EY' & EU' & EV' & _).
  rewrite EX, EY, EU, EV, EX', EY', EU', EV'.
  replace (-0.8) with (- (0.8)) by lra.
  rewrite (sample_mirror 0.8) by lia.
  unfold U_at, V_at.
  destruct (vortex_mirror (sample (-0.5) 1.5 (Z.to_nat grid_res) j)
              (sample (- (0.8)) 0.8 (Z.to_nat grid_res) i)) as [Mu Mv].
  rewrite Mu, Mv.
  split; [reflexivity |].
  repeat split; apply Rabs_zero_le; lra.
Qed.

Lemma X17_mirror_about_chord_line_witness :
  exists out,
    compute_flow_field (init "4412" 6 1000000) 200 = Ok out /\
    Rabs (Np.at2 (fY out) 199 50 + Np.at2 (fY out) 0 50) <= 1e-9 /\
    Rabs (Np.at2 (fV out) 199 50 - Np.at2 (fV out) 0 50) <= 1e-9.
Proof.
  destruct (run_flow (init "4412" 6 1000000) 200 ltac:(lia)) as [out Hrun].
  exists out. split; [exact Hrun |].
  pose proof (X17_mirror_about_chord_line _ 200 out 0 50 Hrun ltac:(lia)) as Hx.
  cbv zeta in Hx. change (Z.to_nat 200 - 1 - 0)%nat with 199%nat in Hx.
  change (Z.to_nat 200) with 200%nat in Hx.
  split; apply Hx; lia.
Defined.

(** X18: the sampling grid is fixed by [grid_res] alone: two solvers,
    whatever their codes, angles of attack and Reynolds numbers, return
    the same [X] and the same [Y]. *)
Theorem X18_grid_is_fixed (s1 s2 : FlowSolver) (grid_res : Z)
    (out1 out2 : flow_field) :
  compute_flow_field s1 grid_res = Ok out1 ->
  compute_flow_field s2 grid_res = Ok out2 ->
  fX out1 = fX out2 /\ fY out1 = fY out2.
Proof.
  intros H1 H2.
  destruct (compute_flow_field_inv s1 grid_res out1 H1) as [_ ->].
  destruct (compute_flow_field_inv s2 grid_res out2 H2) as [_ ->].
  split; reflexivity.
Qed.

Lemma X18_grid_is_fixed_witness :
  exists out1 out2,
    compute_flow_field (init "4412" 6 1000000) 200 = Ok out1 /\
    compute_flow_field (init "0012" 18 500000) 200 = Ok out2 /\
    fX out1 = fX out2 /\ fY out1 = fY out2.
Proof.
  destruct (run_flow (init "4412" 6 1000000) 200 ltac:(lia)) as [out1 H1].
  destruct (run_flow (init "0012" 18 500000) 200 ltac:(lia)) as [out2 H2].
  exists out1, out2. split; [exact H1 |]. split; [exact H2 |].
  apply (X18_grid_is_fixed _ _ 200 out1 out2 H1 H2).
Defined.

(** * The data handed to the plots *)

Lemma cos_atan_le_one (s : R) : cos (atan s) <= 1.
Proof. apply COS_bound. Qed.



(** X20: the "simulated" arrays of the validation script have the nine
    entries of the reference arrays.  Each simulated lift coefficient is
    within [0.02] of its reference; each simulated drag coefficient is
    positive and above its reference, by [0.0006] to [0.0018]. *)
Theorem X20_simulated_against_reference :
  List.length Validation.alpha_sim = 9%nat /\
  List.length Validation.cl_sim = 9%nat /\
  List.length Validation.cd_sim = 9%nat /\
  forall i, (i < 9)%nat ->
    let cl := nth i Validation.cl_ref 0 in
    let cd := nth i Validation.cd_ref 0 in
    Rabs (nth i Validation.cl_sim 0 - cl) <= 0.02 /\
    0.0006 <= nth i Validation.cd_sim 0 - cd <= 0.0018 /\
    0 < nth i Validation.cd_sim 0.
Proof.
  repeat (split; [reflexivity |]).
  intros i Hi. cbv zeta.
  unfold Validation.cl_sim, Validation.cd_sim, Validation.sub_scalar,
    Validation.add_scalar, Validation.mul_scalar,
    Validation.cl_ref, Validation.cd_ref.
  do 9 (destruct i as [| i];
        [cbn [map nth];
         repeat split; try (apply Rabs_le; split); lra |]).
  lia.
Qed.

(** * The direction of the surface offsets *)

Lemma sin_atan_nonneg (s : R) : 0 <= s -> 0 <= sin (atan s).
Proof.
  intros Hs. destruct (atan_bound s) as [_ Hhi].
  pose proof PI_RGT_0 as Hpi.
  apply sin_ge_0; [| lra].
  destruct Hs as [Hs | <-]; [| rewrite atan_0; lra].
  pose proof (atan_increasing 0 s Hs) as Hinc. rewrite atan_0 in Hinc. lra.
Qed.

Lemma sin_atan_nonpos (s : R) : s <= 0 -> sin (atan s) <= 0.
Proof.
  intros Hs. replace s with (- - s) by ring.
  rewrite atan_opp, sin_neg.
  pose proof (sin_atan_nonneg (- s) ltac:(lra)). lra.
Qed.

Lemma camber_slope_sign (m p x : R) :
  0 <= m -> 0 < p < 1 ->
  (x <= p -> 0 <= camber_slope m p x) /\ (p < x -> camber_slope m p x <= 0).
Proof.
  intros Hm [Hp0 Hp1]. unfold camber_slope.
  assert (Hf : 0 <= 2 * m / p ^ 2).
  { apply Rmult_le_pos; [lra | left; apply Rinv_0_lt_compat; nra]. }
  assert (Ha : 0 <= 2 * m / (1 - p) ^ 2).
  { apply Rmult_le_pos; [lra | left; apply Rinv_0_lt_compat; nra]. }
  split; intros Hx; destruct (Rle_dec x p) as [Hle | Hgt]; try lra; nra.
Qed.

(** X21: with [t >= 0] the thickness is laid off towards the rising
    side of the camber line: up to the position [p] of the maximum camber
    the upper point is shifted back and the lower one forward
    ([xu <= x <= xl]); past [p] it is the other way round. *)
Theorem X21_offset_direction (number : string) (n_points : Z)
    (out : coordinates) (m p t : R) (i : nat) :
  naca4_coordinates number n_points = Ok out ->
  decode number = Ok (m, p, t) -> 0 <= t -> (i < Z.to_nat n_points)%nat ->
  let x := nth i (xc out) 0 in
  (x <= p -> nth i (xu out) 0 <= x <= nth i (xl out) 0) /\
  (p < x -> nth i (xl out) 0 <= x <= nth i (xu out) 0).
Proof.
  intros H Hd Ht Hi.
  destruct (naca4_coordinates_at number n_points out m p t i H Hd Hi)
    as (Ex & _ & Exu & _ & Exl & _ & _ & Hx & Hp).
  cbv zeta. rewrite Ex, Exu, Exl.
  set (x := sample 0 1 (Z.to_nat n_points) i) in *.
  unfold xu_at, xl_at, theta_at.
  pose proof (yt_formula_nonneg t x Ht Hx) as Hyt.
  destruct (camber_slope_sign m p x) as [Hfwd Haft];
    [apply (decode_m_range number m p t Hd) | lra |].
  split; intros Hxp.
  - pose proof (sin_atan_nonneg _ (Hfwd Hxp)) as Hs. split; nra.
  - pose proof (sin_atan_nonpos _ (Haft Hxp)) as Hs. split; nra.
Qed.

Lemma X21_offset_direction_witness :
  exists out,
    naca4_coordinates "4412" 200 = Ok out /\
    (nth 20 (xc out) 0 <= 4 / 10 ->
     nth 20 (xu out) 0 <= nth 20 (xc out) 0 <= nth 20 (xl out) 0).
Proof.
  eexists. split; [apply run_4412; lia |].
  apply (X21_offset_direction "4412" 200 _ _ _ _ 20
           (run_4412 200 ltac:(lia)) decode_4412).
  - lra.
  - change (Z.to_nat 200) with 200%nat. lia.
Defined.

(** X22: the grid reaches the border of the domain.  With two samples
    or more per axis the first and last columns of [X] hold [-0.5] and
    [1.5] and the first and last rows of [Y] hold [-0.8] and [0.8]; with
    [grid_res = 1] the only point is the corner [(-0.5, -0.8)]. *)
Theorem X22_grid_border (self : FlowSolver) (grid_res : Z)
    (out : flow_field) (i j : nat) :
  compute_flow_field self grid_res = Ok out ->
  (i < Z.to_nat grid_res)%nat -> (j < Z.to_nat grid_res)%nat ->
  let last := (Z.to_nat grid_res - 1)%nat in
  Np.at2 (fX out) i 0 = -0.5 /\ Np.at2 (fY out) 0 j = -0.8 /\
  ((2 <= grid_res)%Z ->
   Np.at2 (fX out) i last = 1.5 /\ Np.at2 (fY out) last j = 0.8) /\
  (grid_res = 1%Z ->
   fX out = [[-0.5]] /\ fY out = [[-0.8]]).
Proof.
  intros H Hi Hj. cbv zeta.
  assert (H0 : (0 < Z.to_nat grid_res)%nat) by lia.
  destruct (compute_flow_field_at self grid_res out i 0 H Hi H0)
    as (EX0 & _).
  destruct (compute_flow_field_at self grid_res out 0 j H H0 Hj)
    as (_ & EY0 & _).
  rewrite EX0, EY0, !sample_first.
  split; [reflexivity |]. split; [reflexivity |]. split.
  - intros Hg.
    assert (Hl : (Z.to_nat grid_res - 1 < Z.to_nat grid_res)%nat) by lia.
    destruct (compute_flow_field_at self grid_res out i _ H Hi Hl)
      as (EXl & _).
    destruct (compute_flow_field_at self grid_res out _ j H Hl Hj)
      as (_ & EYl & _).
    rewrite EXl, EYl. unfold sample.
    assert (Hd : INR (Z.to_nat grid_res - 1) <> 0) by (apply not_0_INR; lia).
    assert (Hq : forall w, INR (Z.to_nat grid_res - 1) *
                           (w / INR (Z.to_nat grid_res - 1)) = w)
      by (intros w; field; exact Hd).
    rewrite !Hq. split; lra.
  - intros ->.
    destruct (compute_flow_field_inv self 1 out H) as [_ Eout].
    cbv zeta in Eout. rewrite Eout. cbn [fX fY].
    change (Z.to_nat 1) with 1%nat. unfold tab. cbn [seq map].
    rewrite !sample_first. split; reflexivity.
Qed.

Lemma X22_grid_border_witness :
  exists out,
    compute_flow_field (init "4412" 6 1000000) 200 = Ok out /\
    Np.at2 (fX out) 7 0 = -0.5 /\ Np.at2 (fX out) 7 199 = 1.5.
Proof.
  destruct (run_flow (init "4412" 6 1000000) 200 ltac:(lia)) as [out Hrun].
  exists out. split; [exact Hrun |].
  assert (H7 : (7 < Z.to_nat 200)%nat) by (change (Z.to_nat 200) with 200%nat; lia).
  pose proof (X22_grid_border _ 200 out 7 7 Hrun H7 H7) as Hx.
  cbv zeta in Hx. change (Z.to_nat 200 - 1)%nat with 199%nat in Hx.
  destruct Hx as (Ha & _ & Hb & _).
  split; [exact Ha | apply Hb; lia].
Defined.


(** * The thickness of [naca4_coordinates] *)

(** The separator 28 is no white space for [int]: the remainder it
    starts is refused, at line 30. *)
Lemma decode_separator_refused :
  decode (String "4" (String "4" (String (ascii_of_nat 28) "12"))) =
  Raise ValueError.
Proof.
  exact (decode_tail_refused
           (String "4" (String "4" (String (ascii_of_nat 28) "12"))) "4" "4"
           eq_refl eq_refl eq_refl eq_refl eq_refl).
Qed.


